(** * Active-learning notebook: a shallow embedding of its trial loop

    The notebook [active_classifictaion.ipynb] draws an initial random
    sample from a pool of molecules, builds a modAL [ActiveLearner] and runs
    query / oracle / teach cycles, then compares the number of actives found
    with a random baseline.  The cells are translated one by one.  numpy's
    global random state and the calls made on the learner are threaded
    through a small state-and-exception monad, so that the order and the
    arguments of the calls can be stated. *)

From Stdlib Require Import Ascii String.
From Stdlib Require Import List ZArith Lia Permutation Sorted Bool Arith.
Import ListNotations.
Open Scope Z_scope.

(** ** Python exceptions and results *)

Inductive PyExn : Type :=
| ValueError_larger_sample   (* np.random.choice: "Cannot take a larger sample than
                                population when 'replace=False'"; at an empty
                                population the same error is worded "'a' cannot
                                be empty unless no samples are taken" *)
| IndexError                 (* "index i is out of bounds for axis 0 with size n",
                                "arrays used as indices must be of integer (or
                                boolean) type" *)
| ValueError_no_arrays       (* np.stack: "need at least one array to stack" *)
| ValueError_shapes          (* np.stack: "all input arrays must have the same shape" *)
| TypeError.                 (* RDKit handed a float (a missing field) for a SMILES *)

Inductive Result (A : Type) : Type :=
| Ok (a : A)
| Raise (e : PyExn).
Arguments Ok {A} a.
Arguments Raise {A} e.

(** ** Data *)

(** A fingerprint is a numpy vector of bits, a label an int64. *)
Definition Fingerprint : Type := list Z.
Definition Features : Type := list Fingerprint.
Definition Labels : Type := list Z.

(** One row of the data frame read from [data/screen.csv], with the [fp]
    column added by the second statement of that cell. *)
Record Row : Type := { smiles : string; y : Z; fp : Fingerprint }.
Definition DataFrame : Type := list Row.

(** [df.y.values], [df.fp.values] and [len(df)]. *)
Definition y_values (d : DataFrame) : Labels := map y d.
Definition fp_values (d : DataFrame) : Features := map fp d.
Definition len (d : DataFrame) : nat := length d.

(** int64 arithmetic: numpy scalars wrap around. *)
Definition wrap64 (z : Z) : Z := (z + 2 ^ 63) mod 2 ^ 64 - 2 ^ 63.
Definition add64 (a b : Z) : Z := wrap64 (a + b).

(** Python's builtin [sum] over an int64 array: starts from 0 and adds the
    elements left to right. *)
Definition py_sum (l : list Z) : Z := fold_left add64 l 0.

(** The sum over the integers, for comparison. *)
Fixpoint sumZ (l : list Z) : Z :=
  match l with
  | [] => 0
  | v :: rest => v + sumZ rest
  end.

(** [a[idx]] where [idx] is an integer array of positions (what
    [np.random.choice] draws from a range and what a query returns): every
    position has to be in range. *)
Fixpoint take {A : Type} (a : list A) (idx : list nat) : Result (list A) :=
  match idx with
  | [] => Ok []
  | i :: rest =>
      match nth_error a i with
      | None => Raise IndexError
      | Some v =>
          match take a rest with
          | Ok vs => Ok (v :: vs)
          | Raise e => Raise e
          end
      end
  end.

(** An index array as numpy holds it: besides its entries it has a dtype,
    and only integer arrays can be used as indices. *)
Inductive Dtype : Type := int64 | float64.

Record IndexArray : Type := { dtype : Dtype; items : list nat }.

Definition int_array (l : list nat) : IndexArray :=
  {| dtype := int64; items := l |}.

(** numpy's type promotion for the two dtypes. *)
Definition promote (a b : Dtype) : Dtype :=
  match a, b with
  | int64, int64 => int64
  | _, _ => float64
  end.

(** [np.append(a, b)] *)
Definition np_append (a b : IndexArray) : IndexArray :=
  {| dtype := promote (dtype a) (dtype b); items := items a ++ items b |}.

(** The dtype of [np.array(range(n))]: an empty range gives a float
    array. *)
Definition range_dtype (n : nat) : Dtype :=
  if (n =? 0)%nat then float64 else int64.

(** [a[idx]] for an index array [idx]: a float array is refused. *)
Definition take_at {A : Type} (a : list A) (idx : IndexArray) : Result (list A) :=
  match dtype idx with
  | int64 => take a (items idx)
  | float64 => Raise IndexError
  end.

(** The position an integer index denotes in an array of [n] entries:
    negative indices count from the end. *)
Definition position (n : nat) (i : Z) : option nat :=
  if (0 <=? i) && (i <? Z.of_nat n) then Some (Z.to_nat i)
  else if (- Z.of_nat n <=? i) && (i <? 0) then Some (Z.to_nat (Z.of_nat n + i))
  else None.

(** [a[idx]] for a list or array of integers of either sign. *)
Fixpoint np_index {A : Type} (a : list A) (idx : list Z) : Result (list A) :=
  match idx with
  | [] => Ok []
  | i :: rest =>
      match position (length a) i with
      | None => Raise IndexError
      | Some k =>
          match nth_error a k with
          | None => Raise IndexError
          | Some v =>
              match np_index a rest with
              | Ok vs => Ok (v :: vs)
              | Raise e => Raise e
              end
          end
      end
  end.

(** [np.stack(arrays)]: at least one array, all of one shape. *)
Definition np_stack (arrays : list Fingerprint) : Result Features :=
  match arrays with
  | [] => Raise ValueError_no_arrays
  | a :: rest =>
      if forallb (fun b => (length b =? length a)%nat) rest then Ok arrays
      else Raise ValueError_shapes
  end.

(** ** External capabilities *)

(** numpy's global [RandomState]: [permutation n] shuffles [range(n)]. *)
Class RandomState (Rng : Type) : Type := {
  permutation : Rng -> nat -> list nat * Rng;
  permutation_perm : forall r n, Permutation (fst (permutation r n)) (seq 0 n)
}.

(** modAL's [ActiveLearner] around a [RandomForestClassifier()]: construction
    fits the estimator, [query] selects a batch of pool indices, [teach]
    refits with the new batch.  The forest is built with [random_state=None]
    and so draws from numpy's global state as well. *)
Class ActiveLearner (Rng Learner : Type) : Type := {
  al_init : Features -> Labels -> Rng -> Learner * Rng;
  al_query : Learner -> Features -> nat -> Rng -> list nat * Rng;
  al_teach : Learner -> Features -> Labels -> Rng -> Learner * Rng
}.

(** [uru.smi2numpy_fp]: it may raise on a string it cannot parse. *)
Class Fingerprinter : Type := { smi2numpy_fp : string -> Result Fingerprint }.

(** ** The world: random state and the calls made so far *)

Inductive Event : Type :=
| EvChoice (population size : nat) (drawn : list nat)
| EvInit (X : Features) (yv : Labels)
| EvQuery (X : Features) (n : nat) (idx : list nat)
| EvOracle (idx : list Z) (vals : Labels)
| EvTeach (X : Features) (yv : Labels).

Record World (Rng : Type) : Type := { rng : Rng; trace : list Event }.
Arguments rng {Rng} w.
Arguments trace {Rng} w.

Definition emit {Rng} (w : World Rng) (r : Rng) (e : Event) : World Rng :=
  {| rng := r; trace := trace w ++ [e] |}.

(** ** The monad *)

Definition M (Rng A : Type) : Type := World Rng -> Result A * World Rng.

Definition ret {Rng A} (a : A) : M Rng A := fun w => (Ok a, w).

Definition bind {Rng A B} (m : M Rng A) (k : A -> M Rng B) : M Rng B :=
  fun w =>
    match m w with
    | (Ok a, w') => k a w'
    | (Raise e, w') => (Raise e, w')
    end.

Definition lift {Rng A} (r : Result A) : M Rng A := fun w => (r, w).

Declare Scope py_scope.
Delimit Scope py_scope with py.
Notation "x <- m ;; k" := (bind m (fun x => k))
  (at level 100, m at next level, right associativity) : py_scope.
Notation "' p <- m ;; k" := (bind m (fun p => k))
  (at level 100, p pattern, m at next level, right associativity) : py_scope.
Open Scope py_scope.

Section Notebook.

Context {Rng Learner : Type}.
Context {RS : RandomState Rng} {AL : ActiveLearner Rng Learner}.
Context {FP : Fingerprinter}.

Local Abbreviation Py := (M Rng).

(** [np.random.choice(range(population), size=size, replace=False)]:
    raises when the sample is larger than the population, otherwise the
    first [size] entries of a permutation of the population.  The sample
    has the dtype of [np.array(range(population))], which is float64 when
    the range is empty. *)
Definition np_random_choice (population size : nat) : Py IndexArray :=
  fun w =>
    if (population <? size)%nat then (Raise ValueError_larger_sample, w)
    else
      let '(p, r') := permutation (rng w) population in
      let drawn := firstn size p in
      (Ok {| dtype := range_dtype population; items := drawn |},
       emit w r' (EvChoice population size drawn)).

(** [ActiveLearner(estimator=RandomForestClassifier(), X_training=..., y_training=...)] *)
Definition ActiveLearner_new (X : Features) (yv : Labels) : Py Learner :=
  fun w =>
    let '(l, r') := al_init X yv (rng w) in
    (Ok l, emit w r' (EvInit X yv)).

(** [learner.query(X, n_instances=n)]; only the indices are used. *)
Definition learner_query (l : Learner) (X : Features) (n : nat) : Py (list nat) :=
  fun w =>
    let '(idx, r') := al_query l X n (rng w) in
    (Ok idx, emit w r' (EvQuery X n idx)).

(** [learner.teach(X, y)] *)
Definition learner_teach (l : Learner) (X : Features) (yv : Labels) : Py Learner :=
  fun w =>
    let '(l', r') := al_teach l X yv (rng w) in
    (Ok l', emit w r' (EvTeach X yv)).

(** ** Notebook globals *)

(** [class Oracle]: the constructor stores its argument in [self.df]. *)
Record Oracle : Type := { self_df : DataFrame }.

(** The names the later cells read from the notebook's global scope. *)
Record Globals : Type := {
  df : DataFrame;
  X_pool : Features;
  y_pool : Labels;
  n_initial : nat;
  initial_list : IndexArray;
  X_training : Features;
  y_training : Labels;
  oracle : Oracle;
  n_instances : nat
}.

(** [Oracle.get_values]: the body reads the global [df], not [self.df].
    [idx_list] is any list or array of integers. *)
Definition get_values (g : Globals) (self : Oracle) (idx_list : list Z) : Py Labels :=
  fun w =>
    match np_index (y_values (df g)) idx_list with
    | Ok vals => (Ok vals, emit w (rng w) (EvOracle idx_list vals))
    | Raise e => (Raise e, w)
    end.

(** The body of the [for] loop of [run_active_learning]: the loop state is
    the learner and [pick_list].  [query_idx] is an integer array of pool
    positions. *)
Definition cycle (g : Globals) (orc : Oracle) (st : Learner * IndexArray)
  : Py (Learner * IndexArray) :=
  let '(learner, pick_list) := st in
  query_idx <- learner_query learner (X_pool g) (n_instances g) ;;
  y_new <- get_values g orc (map Z.of_nat query_idx) ;;
  Xq <- lift (take (X_pool g) query_idx) ;;
  yq <- lift (take (y_pool g) query_idx) ;;
  learner' <- learner_teach learner Xq yq ;;
  ret (learner', np_append pick_list (int_array query_idx)).

(** [for i in range(0, num_cycles): ...] *)
Fixpoint cycles (g : Globals) (orc : Oracle) (num_cycles : nat)
  (st : Learner * IndexArray) : Py (Learner * IndexArray) :=
  match num_cycles with
  | O => ret st
  | S n => st' <- cycle g orc st ;; cycles g orc n st'
  end.

(** [def run_active_learning(X, y, oracle, num_cycles=10)].  [X] is not
    used by the body; the pool, the training set and the two sizes are read
    from the globals. *)
Definition run_active_learning (g : Globals) (X : Features) (yv : Labels)
  (orc : Oracle) (num_cycles : nat) : Py Z :=
  initial_list <- np_random_choice (len (df g)) (n_initial g) ;;
  let pick_list := initial_list in
  learner <- ActiveLearner_new (X_training g) (y_training g) ;;
  '(_, pick_list) <- cycles g orc num_cycles (learner, pick_list) ;;
  picked <- lift (take_at yv pick_list) ;;
  ret (py_sum picked).

(** The cell that runs ten trials:
    [num_hits = run_active_learning(X_pool, y_pool, oracle)], appended to
    [active_learning_hit_count_list]. *)
Fixpoint active_learning_trials (g : Globals) (trials : nat) (hit_counts : list Z)
  : Py (list Z) :=
  match trials with
  | O => ret hit_counts
  | S n =>
      num_hits <- run_active_learning g (X_pool g) (y_pool g) (oracle g) 10 ;;
      active_learning_trials g n (hit_counts ++ [num_hits])
  end.

Definition active_learning_hit_count_list (g : Globals) : Py (list Z) :=
  active_learning_trials g 10 [].

(** ** The random baseline *)

(** The body of the baseline loop.  The notebook writes the sample size as
    the literal 1000; it is a parameter here and the cell applies it to
    1000. *)
Definition random_trial (d : DataFrame) (size : nat) : Py Z :=
  random_list <- np_random_choice (len d) size ;;
  picked <- lift (take_at (y_values d) random_list) ;;
  ret (py_sum picked).

Fixpoint random_trials (d : DataFrame) (size trials : nat) (hit_counts : list Z)
  : Py (list Z) :=
  match trials with
  | O => ret hit_counts
  | S n =>
      hits <- random_trial d size ;;
      random_trials d size n (hit_counts ++ [hits])
  end.

Definition random_hit_count_list (g : Globals) : Py (list Z) :=
  random_trials (df g) 1000 10 [].

(** ** The first pass of the notebook, cell by cell *)

(** [df = pd.read_csv(...)] followed by
    [df['fp'] = df.smiles.progress_apply(uru.smi2numpy_fp)].  The file's
    content is the argument: each line has an integer label and a SMILES
    field, which pandas reads as NaN when it is empty.  The fingerprints are
    computed row by row; the first row that fails raises, and RDKit raises
    TypeError on a NaN. *)
Fixpoint read_screen (csv : list (option string * Z)) : Result DataFrame :=
  match csv with
  | [] => Ok []
  | (field, label) :: rest =>
      match field with
      | None => Raise TypeError
      | Some s =>
          match smi2numpy_fp s with
          | Raise e => Raise e
          | Ok f =>
              match read_screen rest with
              | Ok d => Ok ({| smiles := s; y := label; fp := f |} :: d)
              | Raise e => Raise e
              end
          end
      end
  end.

(** The body of the first active-learning loop, which also prints the
    running number of actives; the printed numbers are collected. *)
Definition cycle_print (g : Globals) (st : Learner * IndexArray * list Z)
  : Py (Learner * IndexArray * list Z) :=
  let '(learner, pick_list, printed) := st in
  query_idx <- learner_query learner (X_pool g) (n_instances g) ;;
  y_new <- get_values g (oracle g) (map Z.of_nat query_idx) ;;
  Xq <- lift (take (X_pool g) query_idx) ;;
  yq <- lift (take (y_pool g) query_idx) ;;
  learner' <- learner_teach learner Xq yq ;;
  let pick_list := np_append pick_list (int_array query_idx) in
  picked <- lift (take_at (y_pool g) pick_list) ;;
  ret (learner', pick_list, printed ++ [py_sum picked]).

Fixpoint cycles_print (g : Globals) (n : nat)
  (st : Learner * IndexArray * list Z) : Py (Learner * IndexArray * list Z) :=
  match n with
  | O => ret st
  | S k => st' <- cycle_print g st ;; cycles_print g k st'
  end.

(** The cells from reading the data to the end of the first loop, in
    order.  Returns the globals they leave behind and what the loop
    printed. *)
Definition notebook (csv : list (option string * Z)) : Py (Globals * list Z) :=
  df <- lift (read_screen csv) ;;
  X_pool <- lift (np_stack (fp_values df)) ;;
  let y_pool := y_values df in
  let n_initial := 100%nat in
  initial_list <- np_random_choice (len df) n_initial ;;
  X_training <- lift (take_at X_pool initial_list) ;;
  y_training <- lift (take_at y_pool initial_list) ;;
  learner <- ActiveLearner_new X_training y_training ;;
  let oracle := {| self_df := df |} in
  let pick_list := initial_list in
  let n_instances := 100%nat in
  let g := {| df := df; X_pool := X_pool; y_pool := y_pool;
              n_initial := n_initial; initial_list := initial_list;
              X_training := X_training; y_training := y_training;
              oracle := oracle; n_instances := n_instances |} in
  '(_, _, printed) <- cycles_print g 10 (learner, pick_list, []) ;;
  ret (g, printed).

(** The notebook from its first cell to the first of the ten trials: the
    first pass, the baseline cell, and one call of the trial function as
    the trial cell makes it. *)
Definition session_until_first_trial (csv : list (option string * Z))
  : Py (Globals * Z) :=
  '(g, _) <- notebook csv ;;
  _ <- random_hit_count_list g ;;
  num_hits <- run_active_learning g (X_pool g) (y_pool g) (oracle g) 10 ;;
  ret (g, num_hits).

(** ** What the trial assumes of its surroundings *)

(** The pool arrays are the columns of the data frame (the cell
    [X_pool = np.stack(df.fp.values); y_pool = df.y.values]). *)
Definition pool_of_df (g : Globals) : Prop :=
  X_pool g = fp_values (df g) /\ y_pool g = y_values (df g).

(** The query strategy's contract: asked for [n_instances] picks from the
    pool, it returns that many indices into the pool. *)
Definition query_contract (g : Globals) : Prop :=
  forall (l : Learner) (r : Rng),
    let idx := fst (al_query l (X_pool g) (n_instances g) r) in
    length idx = n_instances g /\
    Forall (fun i => (i < length (X_pool g))%nat) idx.

End Notebook.

(** ** Vocabulary of the statements *)

(** How many indices a trial selects: the initial sample and one batch per
    cycle. *)
Definition selection_size (n_initial n_instances num_cycles : nat) : nat :=
  (n_initial + num_cycles * n_instances)%nat.

(** Binary labels, as in the screening file. *)
Definition binary (l : Labels) : Prop := Forall (fun v => v = 0 \/ v = 1) l.

(** The entries of [a] at the positions [sel], one per position, repeated
    positions included. *)
Definition labels_at (a : Labels) (sel : list nat) : Labels :=
  map (fun i => nth i a 0) sel.

(** The number of positive labels in a list. *)
Definition count_positive (l : Labels) : Z :=
  Z.of_nat (length (filter (fun v => 0 <? v) l)).

(** The samples drawn and the training sets fitted, as a trace records
    them. *)
Fixpoint drawn_samples (tr : list Event) : list (list nat) :=
  match tr with
  | [] => []
  | EvChoice _ _ drawn :: rest => drawn :: drawn_samples rest
  | _ :: rest => drawn_samples rest
  end.

Fixpoint fitted_sets (tr : list Event) : list (Features * Labels) :=
  match tr with
  | [] => []
  | EvInit X yv :: rest => (X, yv) :: fitted_sets rest
  | _ :: rest => fitted_sets rest
  end.

(** What [cycles] adds to the trace for the batches it queries: for each
    batch a query on the pool, the oracle's answer for the batch, and a
    [teach] call. *)
Inductive CycleTrace (g : Globals) : list (list nat) -> list Event -> Prop :=
| CycleTrace_nil : CycleTrace g [] []
| CycleTrace_cons (b : list nat) (Xq : Features) (vals : Labels)
    (bs : list (list nat)) (tr : list Event) :
    take (X_pool g) b = Ok Xq ->
    take (y_values (df g)) b = Ok vals ->
    CycleTrace g bs tr ->
    CycleTrace g (b :: bs)
      (EvQuery (X_pool g) (n_instances g) b ::
       EvOracle (map Z.of_nat b) vals :: EvTeach Xq vals :: tr).

(** A batch as the query contract promises it. *)
Definition batch_ok (g : Globals) (b : list nat) : Prop :=
  length b = n_instances g /\ Forall (fun i => (i < len (df g))%nat) b.

(** A computation is [framed] when it reads nothing of the world but the
    random state: run after any history, it returns what it returns from a
    fresh trace, and appends the same calls. *)
Definition fresh {Rng : Type} (r : Rng) : World Rng :=
  {| rng := r; trace := [] |}.

Definition framed {Rng A : Type} (m : M Rng A) : Prop :=
  forall w : World Rng,
    m w = (fst (m (fresh (rng w))),
           {| rng := rng (snd (m (fresh (rng w))));
              trace := trace w ++ trace (snd (m (fresh (rng w)))) |}).

(** *** Counting the states of the generator

    Chance enters through the state of numpy's generator.  A population of
    equally likely states is given as a list [seeds]; an outcome is as
    likely as the states that lead to it are many. *)

(** How many of the states in [seeds] make [f] give [x]. *)
Definition tally {Rng : Type} (f : Rng -> list nat) (seeds : list Rng)
  (x : list nat) : nat :=
  count_occ (list_eq_dec Nat.eq_dec) (map f seeds) x.

(** The generator shuffles [range(M)] uniformly over [seeds]: every
    permutation of [range(M)] comes from as many states as any other. *)
Definition uniform_permutations {Rng : Type} {RS : RandomState Rng}
  (seeds : list Rng) (M : nat) : Prop :=
  forall p q : list nat,
    Permutation p (seq 0 M) -> Permutation q (seq 0 M) ->
    tally (fun r => fst (permutation r M)) seeds p
      = tally (fun r => fst (permutation r M)) seeds q.

(** The indices a baseline trial draws when it starts in state [s], as its
    trace records them. *)
Definition baseline_sample {Rng : Type} {RS : RandomState Rng}
  (d : DataFrame) (k : nat) (s : Rng) : list nat :=
  concat (drawn_samples (trace (snd (random_trial d k (fresh s))))).

(** A file whose rows all carry a SMILES string that the fingerprinter
    turns into a vector of [nbits] entries. *)
Definition fingerprints_ok {FP : Fingerprinter} (nbits : nat)
  (csv : list (option string * Z)) : Prop :=
  Forall (fun row => exists s f,
            fst row = Some s /\ smi2numpy_fp s = Ok f /\ length f = nbits) csv.

(** The first position of [x] in [l]. *)
Fixpoint index_of (x : nat) (l : list nat) : nat :=
  match l with
  | [] => 0
  | a :: rest => if (a =? x)%nat then 0%nat else S (index_of x rest)
  end.

(** The renaming of the indices that sends the entries of [a] to the
    entries of [b], place by place, and moves nothing else. *)
Definition relabel (a b : list nat) (x : nat) : nat :=
  if (x <? length a)%nat then nth (index_of x a) b 0%nat else x.

(** ** A small executable world

    A counter as random state whose [permutation] rotates [range(n)], and a
    learner that only remembers how many samples it has seen and picks a
    window of the pool that moves with the counter.  They make the
    notebook's definitions run on concrete pools. *)

Module Demo.

Definition rotate (k n : nat) : list nat :=
  skipn k (seq 0 n) ++ firstn k (seq 0 n).

Lemma rotate_perm (k n : nat) : Permutation (rotate k n) (seq 0 n).
Proof.
  unfold rotate.
  rewrite Permutation_app_comm.
  now rewrite firstn_skipn.
Qed.

#[global] Instance counter_rng : RandomState nat := {|
  permutation := fun r n => (rotate (r mod n) n, S r);
  permutation_perm := fun r n => rotate_perm (r mod n) n
|}.

Definition window (start n size : nat) : list nat :=
  map (fun i => ((i + start) mod size)%nat) (seq 0 n).

#[global] Instance counting_learner : ActiveLearner nat nat := {|
  al_init := fun X _ r => (length X, S r);
  al_query := fun seen X n r => (window (seen + r) n (length X), S r);
  al_teach := fun seen X _ r => ((seen + length X)%nat, S r)
|}.

#[global] Instance length_fp : Fingerprinter := {|
  smi2numpy_fp := fun s => Ok [Z.of_nat (String.length s)]
|}.

Definition world0 (seed : nat) : World nat := {| rng := seed; trace := [] |}.

(** A pool of four molecules, the second and fourth active: the file and
    the data frame the first two cells make of it. *)
Definition csv4 : list (option string * Z) :=
  [(Some "C"%string, 0); (Some "CC"%string, 1); (Some "CCC"%string, 0);
   (Some "CCCC"%string, 1)].

Definition df4 : DataFrame :=
  [{| smiles := "C"; y := 0; fp := [1] |};
   {| smiles := "CC"; y := 1; fp := [2] |};
   {| smiles := "CCC"; y := 0; fp := [3] |};
   {| smiles := "CCCC"; y := 1; fp := [4] |}].

(** Globals as the notebook's cells would leave them for this pool with an
    initial sample of one molecule, drawn as index 0, and batches of two. *)
Definition g4 : Globals := {|
  df := df4;
  X_pool := fp_values df4;
  y_pool := y_values df4;
  n_initial := 1;
  initial_list := int_array [0%nat];
  X_training := [[1]];
  y_training := [0];
  oracle := {| self_df := df4 |};
  n_instances := 2
|}.

(** The same globals after [n_initial = 5], more than the pool holds. *)
Definition g4_oversized : Globals := {|
  df := df4;
  X_pool := fp_values df4;
  y_pool := y_values df4;
  n_initial := 5;
  initial_list := int_array [0%nat];
  X_training := [[1]];
  y_training := [0];
  oracle := {| self_df := df4 |};
  n_instances := 2
|}.

(** A world with the same random state as [world0 seed] and a call already
    on its trace. *)
Definition world_later (seed : nat) : World nat :=
  {| rng := seed; trace := [EvOracle [0] [0]] |}.

(** A pool of [n] molecules: methane, ethane and propane in turn, every
    seventh molecule active. *)
Definition alkane (i : nat) : string :=
  match (i mod 3)%nat with
  | O => "C"
  | S O => "CC"
  | _ => "CCC"
  end.

Definition csv_alkanes (n : nat) : list (option string * Z) :=
  map (fun i => (Some (alkane i), if (i mod 7 =? 0)%nat then 1 else 0))
      (seq 0 n).

(** Globals in which the feature array is older than the data frame: the
    file was read again with four rows while [X_pool] still holds six
    fingerprints. *)
Definition g_stale_pool : Globals := {|
  df := df4;
  X_pool := [[1]; [2]; [3]; [4]; [5]; [6]];
  y_pool := y_values df4;
  n_initial := 1;
  initial_list := int_array [0%nat];
  X_training := [[1]];
  y_training := [0];
  oracle := {| self_df := df4 |};
  n_instances := 2
|}.

(** Globals after the file was read again and had no rows, with
    [n_initial] set to 0: the arrays of the first pass on the pool of four
    are still there. *)
Definition g_empty : Globals := {|
  df := [];
  X_pool := fp_values df4;
  y_pool := y_values df4;
  n_initial := 0;
  initial_list := int_array [0%nat];
  X_training := [[1]];
  y_training := [0];
  oracle := {| self_df := df4 |};
  n_instances := 2
|}.

(** A pool of two molecules, the second active. *)
Definition df2 : DataFrame :=
  [{| smiles := "C"; y := 0; fp := [1] |};
   {| smiles := "CC"; y := 1; fp := [2] |}].

(** A file of four rows whose third SMILES field is empty. *)
Definition csv_gap : list (option string * Z) :=
  [(Some "C"%string, 0); (Some "CC"%string, 1); (None, 0);
   (Some "CCCC"%string, 1)].

(** A pool of [n] molecules that all carry the same label, and the globals
    for it with the given sizes, the first pass having drawn the first
    [n_init] molecules. *)
Definition df_constant (n : nat) (label : Z) : DataFrame :=
  map (fun i => {| smiles := alkane i; y := label;
                   fp := [Z.of_nat (String.length (alkane i))] |}) (seq 0 n).

Definition globals_of (d : DataFrame) (n_init n_inst : nat) : Globals :=
  {| df := d;
     X_pool := fp_values d;
     y_pool := y_values d;
     n_initial := n_init;
     initial_list := int_array (seq 0 n_init);
     X_training := firstn n_init (fp_values d);
     y_training := firstn n_init (y_values d);
     oracle := {| self_df := d |};
     n_instances := n_inst |}.

End Demo.

(** ** Lemmas on the numpy primitives *)

Lemma take_ok {A : Type} (a : list A) (idx : list nat) :
  Forall (fun i => (i < length a)%nat) idx ->
  exists vs, take a idx = Ok vs /\ length vs = length idx.
Proof.
  induction 1 as [|i rest Hi _ IH]; simpl.
  - now exists [].
  - destruct IH as (vs & -> & Hlen).
    destruct (nth_error a i) as [v|] eqn:E.
    + exists (v :: vs); simpl; now rewrite Hlen.
    + apply nth_error_None in E; lia.
Qed.

Lemma take_in_range {A : Type} (a : list A) (idx : list nat) (vs : list A) :
  take a idx = Ok vs -> Forall (fun i => (i < length a)%nat) idx.
Proof.
  revert vs; induction idx as [|i rest IH]; intros vs; simpl; [constructor|].
  destruct (nth_error a i) eqn:E; [|discriminate].
  destruct (take a rest) eqn:T; [|discriminate].
  intros _; constructor; [|eauto].
  apply nth_error_Some; congruence.
Qed.

Lemma take_app {A : Type} (a : list A) (i1 i2 : list nat) (v1 v2 : list A) :
  take a i1 = Ok v1 -> take a i2 = Ok v2 -> take a (i1 ++ i2) = Ok (v1 ++ v2).
Proof.
  revert v1; induction i1 as [|i rest IH]; intros v1; simpl.
  - now intros [= <-].
  - destruct (nth_error a i); [|discriminate].
    destruct (take a rest) eqn:T; [|discriminate].
    intros [= <-] H2. now rewrite (IH _ eq_refl H2).
Qed.

Lemma take_Forall {A : Type} (P : A -> Prop) (a : list A) (idx : list nat) (vs : list A) :
  Forall P a -> take a idx = Ok vs -> Forall P vs.
Proof.
  intros Ha; revert vs; induction idx as [|i rest IH]; intros vs; simpl.
  - intros [= <-]; constructor.
  - destruct (nth_error a i) as [v|] eqn:E; [|discriminate].
    destruct (take a rest) eqn:T; [|discriminate].
    intros [= <-]; constructor; [|eauto].
    rewrite Forall_forall in Ha; eapply Ha, nth_error_In; eauto.
Qed.

Lemma take_length {A : Type} (a : list A) (idx : list nat) (vs : list A) :
  take a idx = Ok vs -> length vs = length idx.
Proof.
  revert vs; induction idx as [|i rest IH]; intros vs; simpl.
  - now intros [= <-].
  - destruct (nth_error a i); [|discriminate].
    destruct (take a rest) eqn:T; [|discriminate].
    intros [= <-]; simpl; f_equal; eauto.
Qed.

Lemma take_nth {A : Type} (d : A) (a : list A) (idx : list nat) :
  Forall (fun i => (i < length a)%nat) idx ->
  take a idx = Ok (map (fun i => nth i a d) idx).
Proof.
  induction 1 as [|i rest Hi _ IH]; simpl; [reflexivity|].
  rewrite IH.
  destruct (nth_error a i) as [v|] eqn:E.
  - now rewrite (nth_error_nth _ _ d E).
  - apply nth_error_None in E; lia.
Qed.

Lemma take_raises {A : Type} (a : list A) (idx : list nat) :
  ~ Forall (fun i => (i < length a)%nat) idx ->
  take a idx = Raise IndexError.
Proof.
  induction idx as [|i rest IH]; intros Hbad; simpl.
  - exfalso; apply Hbad; constructor.
  - destruct (nth_error a i) as [v|] eqn:E; [|reflexivity].
    rewrite IH; [reflexivity|].
    intros Hrest. apply Hbad. constructor; [|exact Hrest].
    apply nth_error_Some. congruence.
Qed.

Lemma position_of_nat (n i : nat) :
  position n (Z.of_nat i) = if (i <? n)%nat then Some i else None.
Proof.
  unfold position.
  destruct (Nat.ltb_spec i n) as [Hlt|Hge].
  - assert (H1 : (0 <=? Z.of_nat i) = true) by (apply Z.leb_le; lia).
    assert (H2 : (Z.of_nat i <? Z.of_nat n) = true) by (apply Z.ltb_lt; lia).
    rewrite H1, H2. cbn. now rewrite Nat2Z.id.
  - assert (H2 : (Z.of_nat i <? Z.of_nat n) = false) by (apply Z.ltb_ge; lia).
    assert (H3 : (Z.of_nat i <? 0) = false) by (apply Z.ltb_ge; lia).
    now rewrite H2, H3, !andb_false_r.
Qed.

(** On positions, integer indexing is [take]. *)
Lemma np_index_of_nat {A : Type} (a : list A) (idx : list nat) :
  np_index a (map Z.of_nat idx) = take a idx.
Proof.
  induction idx as [|i rest IH]; [reflexivity|].
  cbn [map np_index take]. rewrite position_of_nat, IH.
  destruct (Nat.ltb_spec i (length a)) as [Hlt|Hge]; [reflexivity|].
  apply nth_error_None in Hge. now rewrite Hge.
Qed.

(** The position of an integer index inside [-n, n) is its residue. *)
Lemma position_inside (n : nat) (i : Z) :
  - Z.of_nat n <= i < Z.of_nat n ->
  position n i = Some (Z.to_nat (i mod Z.of_nat n)) /\
  (Z.to_nat (i mod Z.of_nat n) < n)%nat.
Proof.
  intros Hi. unfold position.
  assert (Hmod : 0 <= i mod Z.of_nat n < Z.of_nat n)
    by (apply Z.mod_pos_bound; lia).
  split; [|lia].
  destruct (Z.leb_spec 0 i) as [Hnn|Hneg].
  - assert (H2 : (i <? Z.of_nat n) = true) by (apply Z.ltb_lt; lia).
    rewrite H2. cbn. now rewrite Z.mod_small by lia.
  - cbn [andb].
    assert (H1 : (- Z.of_nat n <=? i) = true) by (apply Z.leb_le; lia).
    assert (H2 : (i <? 0) = true) by (apply Z.ltb_lt; lia).
    rewrite H1, H2. cbn. do 2 f_equal.
    rewrite <- (Z_mod_plus_full i 1 (Z.of_nat n)).
    rewrite Z.mod_small; lia.
Qed.

Lemma position_outside (n : nat) (i : Z) :
  ~ (- Z.of_nat n <= i < Z.of_nat n) -> position n i = None.
Proof.
  intros Hi. unfold position.
  destruct (Z.leb_spec 0 i), (Z.ltb_spec i (Z.of_nat n)),
    (Z.leb_spec (- Z.of_nat n) i), (Z.ltb_spec i 0); cbn; trivial; lia.
Qed.

(** Integer indexing succeeds on indices inside [-n, n), with the entry at
    the residue of each index. *)
Lemma np_index_inside {A : Type} (d : A) (a : list A) (idx : list Z) :
  Forall (fun i => - Z.of_nat (length a) <= i < Z.of_nat (length a)) idx ->
  np_index a idx
    = Ok (map (fun i => nth (Z.to_nat (i mod Z.of_nat (length a))) a d) idx).
Proof.
  induction 1 as [|i rest Hi _ IH]; [reflexivity|].
  cbn [np_index map]. destruct (position_inside _ i Hi) as [-> Hlt].
  rewrite IH.
  destruct (nth_error a (Z.to_nat (i mod Z.of_nat (length a)))) as [v|] eqn:E.
  - now rewrite (nth_error_nth _ _ d E).
  - apply nth_error_None in E. lia.
Qed.

Lemma np_index_outside {A : Type} (a : list A) (idx : list Z) :
  ~ Forall (fun i => - Z.of_nat (length a) <= i < Z.of_nat (length a)) idx ->
  np_index a idx = Raise IndexError.
Proof.
  induction idx as [|i rest IH]; intros Hbad.
  - exfalso; apply Hbad; constructor.
  - cbn [np_index].
    destruct (Z_le_dec (- Z.of_nat (length a)) i) as [H1|H1];
      [destruct (Z_lt_dec i (Z.of_nat (length a))) as [H2|H2]|].
    + destruct (position_inside _ i (conj H1 H2)) as [-> Hlt].
      destruct (nth_error a _) as [v|]; [|reflexivity].
      rewrite IH; [reflexivity|].
      intros Hrest. apply Hbad. constructor; [lia|exact Hrest].
    + rewrite position_outside; [reflexivity|lia].
    + rewrite position_outside; [reflexivity|lia].
Qed.

Lemma take_raise_is_IndexError {A : Type} (a : list A) (idx : list nat)
  (e : PyExn) :
  take a idx = Raise e -> e = IndexError.
Proof.
  induction idx as [|i rest IH]; simpl; [discriminate|].
  destruct (nth_error a i); [|now intros [= <-]].
  destruct (take a rest) eqn:T; [discriminate|].
  intros [= <-]. now apply IH.
Qed.

Lemma np_index_raise_is_IndexError {A : Type} (a : list A) (idx : list Z)
  (e : PyExn) :
  np_index a idx = Raise e -> e = IndexError.
Proof.
  induction idx as [|i rest IH]; simpl; [discriminate|].
  destruct (position (length a) i) as [k|]; [|now intros [= <-]].
  destruct (nth_error a k); [|now intros [= <-]].
  destruct (np_index a rest) eqn:T; [discriminate|].
  intros [= <-]. now apply IH.
Qed.

Lemma promote_int64_r (d : Dtype) : promote d int64 = d.
Proof. now destruct d. Qed.

Lemma np_append_int (p : IndexArray) (b : list nat) :
  np_append p (int_array b) = {| dtype := dtype p; items := items p ++ b |}.
Proof. unfold np_append. cbn. now rewrite promote_int64_r. Qed.

Lemma range_dtype_pos (n : nat) : (0 < n)%nat -> range_dtype n = int64.
Proof. unfold range_dtype. destruct n; [lia|reflexivity]. Qed.

(** ** Lemmas on sums *)

Lemma wrap64_small (z : Z) : - 2 ^ 63 <= z < 2 ^ 63 -> wrap64 z = z.
Proof.
  intros H; unfold wrap64.
  change (2 ^ 64) with (2 * 2 ^ 63).
  rewrite Z.mod_small; lia.
Qed.

Lemma sumZ_app (l1 l2 : list Z) : sumZ (l1 ++ l2) = sumZ l1 + sumZ l2.
Proof. induction l1; simpl; lia. Qed.

Lemma sumZ_bounds (b : Z) (l : list Z) :
  Forall (fun v => 0 <= v <= b) l ->
  0 <= sumZ l <= b * Z.of_nat (length l).
Proof.
  induction 1; simpl length; simpl sumZ; [lia|].
  rewrite Nat2Z.inj_succ; nia.
Qed.

Lemma sumZ_nonneg (l : list Z) : Forall (fun v => 0 <= v) l -> 0 <= sumZ l.
Proof. induction 1; simpl; lia. Qed.

Lemma sumZ_const (c : Z) (l : list Z) :
  Forall (fun v => v = c) l -> sumZ l = c * Z.of_nat (length l).
Proof.
  induction 1; simpl length; simpl sumZ; [lia|].
  rewrite Nat2Z.inj_succ; nia.
Qed.

Lemma fold_add64_exact (l : list Z) (acc : Z) :
  Forall (fun v => 0 <= v) l -> 0 <= acc -> acc + sumZ l < 2 ^ 63 ->
  fold_left add64 l acc = acc + sumZ l.
Proof.
  intros Hl; revert acc.
  induction Hl as [|v l Hv Hl IH]; intros acc Hacc Hb;
    cbn [fold_left sumZ] in *.
  - lia.
  - pose proof (sumZ_nonneg l Hl) as Hs.
    assert (add64 acc v = acc + v) as -> by (apply wrap64_small; lia).
    rewrite IH; lia.
Qed.

(** Without overflow the builtin [sum] is the sum. *)
Lemma py_sum_exact (l : list Z) :
  Forall (fun v => 0 <= v) l -> sumZ l < 2 ^ 63 -> py_sum l = sumZ l.
Proof.
  intros Hl Hb; unfold py_sum. rewrite fold_add64_exact; trivial; lia.
Qed.

Lemma firstn_incl {A : Type} (n : nat) (l : list A) (x : A) :
  In x (firstn n l) -> In x l.
Proof.
  intros H. rewrite <- (firstn_skipn n l). apply in_or_app; now left.
Qed.

Lemma firstn_NoDup {A : Type} (n : nat) (l : list A) :
  NoDup l -> NoDup (firstn n l).
Proof.
  intros H. rewrite <- (firstn_skipn n l) in H.
  eapply NoDup_app_remove_r; eauto.
Qed.

Lemma concat_length_const {A : Type} (k : nat) (ls : list (list A)) :
  Forall (fun b => length b = k) ls ->
  length (concat ls) = (length ls * k)%nat.
Proof.
  induction 1 as [|b ls Hb _ IH]; simpl; [reflexivity|].
  rewrite length_app, IH, Hb; lia.
Qed.

Lemma Forall_concat {A : Type} (P : A -> Prop) (ls : list (list A)) :
  Forall (Forall P) ls -> Forall P (concat ls).
Proof.
  induction 1; simpl; [constructor|].
  apply Forall_app; now split.
Qed.

(** A duplicate-free list inside another can be completed to a permutation
    of it. *)
Lemma NoDup_incl_extend {A : Type} (l : list A) :
  NoDup l -> forall l', incl l l' -> exists rest, Permutation (l ++ rest) l'.
Proof.
  induction 1 as [|x l1 Hx _ IH]; intros l' Hincl.
  - exists l'. reflexivity.
  - destruct (in_split x l' (Hincl x (or_introl eq_refl))) as (p1 & p2 & ->).
    destruct (IH (p1 ++ p2)) as [rest Hrest].
    + intros z Hz.
      assert (Hz' : In z (p1 ++ x :: p2)) by (apply Hincl; now right).
      apply in_app_or in Hz'. apply in_or_app.
      destruct Hz' as [Hz'|[->|Hz']]; [now left|contradiction|now right].
    + exists rest. simpl.
      etransitivity; [apply perm_skip; exact Hrest|].
      apply Permutation_middle.
Qed.

(** ** The shape of a trial *)

Section Properties.

Context {Rng Learner : Type}.
Context {RS : RandomState Rng} {AL : ActiveLearner Rng Learner}.
Context {FP : Fingerprinter}.

Lemma pool_lengths (g : Globals) :
  pool_of_df g ->
  length (X_pool g) = len (df g) /\ length (y_pool g) = len (df g) /\
  length (y_values (df g)) = len (df g).
Proof.
  intros [HX Hy]. rewrite HX, Hy. unfold fp_values, y_values, len.
  now rewrite !length_map.
Qed.

Lemma np_random_choice_ok (population size : nat) (w : World Rng) :
  (size <= population)%nat ->
  exists drawn r',
    np_random_choice population size w
      = (Ok {| dtype := range_dtype population; items := drawn |},
         emit w r' (EvChoice population size drawn)) /\
    length drawn = size /\ NoDup drawn /\
    Forall (fun i => (i < population)%nat) drawn.
Proof.
  intros Hle. unfold np_random_choice.
  destruct (Nat.ltb_spec population size) as [Hlt|_]; [lia|].
  pose proof (permutation_perm (rng w) population) as Hp.
  destruct (permutation (rng w) population) as [p r'] eqn:E; simpl in Hp.
  exists (firstn size p), r'. split; [reflexivity|].
  assert (Hlen : length p = population)
    by (rewrite (Permutation_length Hp); apply length_seq).
  split; [rewrite length_firstn; lia|].
  split.
  - apply firstn_NoDup.
    eapply Permutation_NoDup; [apply Permutation_sym; exact Hp|apply seq_NoDup].
  - apply Forall_forall. intros i Hi.
    apply firstn_incl in Hi.
    apply (Permutation_in _ Hp), in_seq in Hi. lia.
Qed.

Lemma np_random_choice_raises (population size : nat) (w : World Rng) :
  (population < size)%nat ->
  np_random_choice population size w = (Raise ValueError_larger_sample, w).
Proof.
  intros Hlt. unfold np_random_choice.
  destruct (Nat.ltb_spec population size); [reflexivity|lia].
Qed.

(** The sample in terms of the generator's permutation. *)
Lemma np_random_choice_eq (population size : nat) (w : World Rng) :
  (size <= population)%nat ->
  np_random_choice population size w
    = (Ok {| dtype := range_dtype population;
             items := firstn size (fst (permutation (rng w) population)) |},
       emit w (snd (permutation (rng w) population))
         (EvChoice population size
            (firstn size (fst (permutation (rng w) population))))).
Proof.
  intros Hle. unfold np_random_choice.
  destruct (Nat.ltb_spec population size) as [Hlt|_]; [lia|].
  now destruct (permutation (rng w) population).
Qed.

(** One pass through the loop body. *)
Lemma cycle_ok (g : Globals) (orc : Oracle) (l : Learner) (pick : IndexArray)
  (w : World Rng) :
  pool_of_df g -> query_contract g ->
  exists b Xq vals l' r',
    cycle g orc (l, pick) w
      = (Ok (l', {| dtype := dtype pick; items := items pick ++ b |}),
         {| rng := r';
            trace := trace w ++ [EvQuery (X_pool g) (n_instances g) b;
                                 EvOracle (map Z.of_nat b) vals;
                                 EvTeach Xq vals] |}) /\
    batch_ok g b /\
    take (X_pool g) b = Ok Xq /\ take (y_values (df g)) b = Ok vals.
Proof.
  intros Hpool Hq.
  destruct (pool_lengths g Hpool) as (LX & Ly & Lv).
  specialize (Hq l (rng w)). cbv zeta in Hq.
  unfold cycle, bind, learner_query.
  destruct (al_query l (X_pool g) (n_instances g) (rng w)) as [b r1] eqn:EQ.
  simpl in Hq. destruct Hq as [Hlen Hrange].
  destruct (take_ok (X_pool g) b Hrange) as (Xq & HX & _).
  assert (Hrange' : Forall (fun i => (i < length (y_values (df g)))%nat) b)
    by (rewrite Lv, <- LX; exact Hrange).
  destruct (take_ok _ b Hrange') as (vals & Hv & _).
  unfold get_values. rewrite np_index_of_nat, Hv. unfold lift. rewrite HX.
  destruct Hpool as [_ Hy]. rewrite Hy, Hv.
  unfold learner_teach, emit; simpl.
  destruct (al_teach l Xq vals r1) as [l' r2] eqn:ET.
  exists b, Xq, vals, l', r2. unfold ret. rewrite np_append_int.
  repeat split; trivial.
  - now rewrite <- !app_assoc.
  - now rewrite <- LX.
Qed.

Lemma cycles_ok (g : Globals) (orc : Oracle) (n : nat) :
  pool_of_df g -> query_contract g ->
  forall (l : Learner) (pick : IndexArray) (w : World Rng),
  exists batches cyc l' r',
    cycles g orc n (l, pick) w
      = (Ok (l', {| dtype := dtype pick;
                    items := items pick ++ concat batches |}),
         {| rng := r'; trace := trace w ++ cyc |}) /\
    length batches = n /\ Forall (batch_ok g) batches /\
    CycleTrace g batches cyc.
Proof.
  intros Hpool Hq. induction n as [|n IH]; intros l pick w.
  - exists [], [], l, (rng w). simpl. unfold ret.
    rewrite !app_nil_r. destruct w, pick; repeat split; constructor.
  - destruct (cycle_ok g orc l pick w Hpool Hq)
      as (b & Xq & vals & l1 & r1 & Hc & Hb & HX & Hv).
    cbn [cycles]. unfold bind at 1. rewrite Hc.
    destruct (IH l1 {| dtype := dtype pick; items := items pick ++ b |}
                {| rng := r1; trace := trace w ++
                [EvQuery (X_pool g) (n_instances g) b;
                 EvOracle (map Z.of_nat b) vals; EvTeach Xq vals] |})
      as (bs & cyc & l' & r' & Hcs & Hlen & Hbs & Htr).
    rewrite Hcs. simpl trace. cbn [dtype items].
    exists (b :: bs),
      (EvQuery (X_pool g) (n_instances g) b ::
       EvOracle (map Z.of_nat b) vals :: EvTeach Xq vals :: cyc), l', r'.
    repeat split.
    + simpl concat. rewrite <- !app_assoc. reflexivity.
    + simpl; congruence.
    + constructor; assumption.
    + constructor; assumption.
Qed.

(** A whole trial, when the pool is not empty and the initial sample fits
    in it. *)
Lemma run_active_learning_ok (g : Globals) (X : Features) (yv : Labels)
  (orc : Oracle) (num_cycles : nat) (w : World Rng) :
  pool_of_df g -> query_contract g -> (0 < len (df g))%nat ->
  (n_initial g <= len (df g))%nat -> length yv = len (df g) ->
  exists init batches cyc vals r',
    run_active_learning g X yv orc num_cycles w
      = (Ok (py_sum vals),
         {| rng := r';
            trace := trace w ++
              EvChoice (len (df g)) (n_initial g) init ::
              EvInit (X_training g) (y_training g) :: cyc |}) /\
    take yv (init ++ concat batches) = Ok vals /\
    length init = n_initial g /\ NoDup init /\
    Forall (fun i => (i < len (df g))%nat) init /\
    length batches = num_cycles /\ Forall (batch_ok g) batches /\
    CycleTrace g batches cyc.
Proof.
  intros Hpool Hq Hpos Hn Hy.
  destruct (np_random_choice_ok (len (df g)) (n_initial g) w Hn)
    as (init & r0 & Hch & Hlen & Hnd & Hrange).
  rewrite (range_dtype_pos _ Hpos) in Hch.
  unfold run_active_learning, bind at 1. rewrite Hch.
  unfold bind at 1, ActiveLearner_new. simpl rng.
  destruct (al_init (X_training g) (y_training g) r0) as [l0 r1] eqn:EI.
  unfold bind at 1.
  destruct (cycles_ok g orc num_cycles Hpool Hq l0
              {| dtype := int64; items := init |}
              (emit (emit w r0 (EvChoice (len (df g)) (n_initial g) init)) r1
                    (EvInit (X_training g) (y_training g))))
    as (batches & cyc & l' & r' & Hcs & Hbl & Hbs & Htr).
  rewrite Hcs. cbn [dtype items].
  assert (Hsel : Forall (fun i => (i < length yv)%nat) (init ++ concat batches)).
  { rewrite Hy. apply Forall_app; split; [exact Hrange|].
    apply Forall_concat. eapply Forall_impl; [|exact Hbs].
    intros b [_ Hb]; exact Hb. }
  destruct (take_ok yv _ Hsel) as (vals & Hv & _).
  unfold bind, lift, take_at. cbn [dtype items]. rewrite Hv. unfold ret.
  exists init, batches, cyc, vals, r'.
  repeat split; trivial.
  simpl. now rewrite <- !app_assoc.
Qed.

(** ** Independence of the history *)

Lemma framed_ret {A : Type} (a : A) : framed (ret a : M Rng A).
Proof. intros [r tr]; unfold ret; simpl. now rewrite app_nil_r. Qed.

Lemma framed_lift {A : Type} (x : Result A) : framed (lift x : M Rng A).
Proof. intros [r tr]; unfold lift; simpl. now rewrite app_nil_r. Qed.

Lemma framed_bind {A B : Type} (m : M Rng A) (k : A -> M Rng B) :
  framed m -> (forall a, framed (k a)) -> framed (bind m k).
Proof.
  intros Hm Hk w. unfold bind. rewrite (Hm w).
  destruct (m (fresh (rng w))) as [[a|e] w0]; simpl; [|reflexivity].
  rewrite (Hk a {| rng := rng w0; trace := trace w ++ trace w0 |}).
  rewrite (Hk a w0). simpl. now rewrite app_assoc.
Qed.

Lemma framed_np_random_choice (population size : nat) :
  framed (np_random_choice population size).
Proof.
  intros [r tr]. unfold np_random_choice, fresh; simpl.
  destruct (population <? size)%nat; simpl; [now rewrite app_nil_r|].
  now destruct (permutation r population).
Qed.

Lemma framed_ActiveLearner_new (X : Features) (yv : Labels) :
  framed (ActiveLearner_new X yv).
Proof.
  intros w. unfold ActiveLearner_new, fresh; simpl.
  now destruct (al_init X yv (rng w)).
Qed.

Lemma framed_learner_query (l : Learner) (X : Features) (n : nat) :
  framed (learner_query l X n).
Proof.
  intros w. unfold learner_query, fresh; simpl.
  now destruct (al_query l X n (rng w)).
Qed.

Lemma framed_learner_teach (l : Learner) (X : Features) (yv : Labels) :
  framed (learner_teach l X yv).
Proof.
  intros w. unfold learner_teach, fresh; simpl.
  now destruct (al_teach l X yv (rng w)).
Qed.

Lemma framed_get_values (g : Globals) (self : Oracle) (idx : list Z) :
  framed (get_values g self idx : M Rng Labels).
Proof.
  intros [r tr]. unfold get_values, fresh; simpl.
  destruct (np_index (y_values (df g)) idx); simpl; [reflexivity|].
  now rewrite app_nil_r.
Qed.

Create HintDb framed.

#[local] Hint Resolve framed_ret framed_lift framed_np_random_choice
  framed_ActiveLearner_new framed_learner_query framed_learner_teach
  framed_get_values : framed.

Ltac framed_step :=
  repeat (apply framed_bind; [auto with framed|intros ?]); auto with framed.

Lemma framed_cycle (g : Globals) (orc : Oracle) (st : Learner * IndexArray) :
  framed (cycle g orc st).
Proof. destruct st as [l pick]. unfold cycle. framed_step. Qed.

Lemma framed_cycles (g : Globals) (orc : Oracle) (n : nat) :
  forall st, framed (cycles g orc n st).
Proof.
  induction n as [|n IH]; intros st; cbn [cycles]; [apply framed_ret|].
  apply framed_bind; [apply framed_cycle|exact IH].
Qed.

Lemma framed_run_active_learning (g : Globals) (X : Features) (yv : Labels)
  (orc : Oracle) (num_cycles : nat) :
  framed (run_active_learning g X yv orc num_cycles).
Proof.
  unfold run_active_learning.
  apply framed_bind; [auto with framed|intros init].
  apply framed_bind; [auto with framed|intros l].
  apply framed_bind; [apply framed_cycles|intros [l' pick]].
  framed_step.
Qed.

Lemma framed_random_trial (d : DataFrame) (size : nat) :
  framed (random_trial d size).
Proof. unfold random_trial. framed_step. Qed.

(** What follows a successful first step only appends to its trace. *)
Lemma bind_trace_first {A B : Type} (m : M Rng A) (k : A -> M Rng B)
  (w w1 : World Rng) (a : A) :
  m w = (Ok a, w1) -> framed (k a) ->
  exists rest, trace (snd (bind m k w)) = trace w1 ++ rest.
Proof.
  intros Hm Hk. unfold bind. rewrite Hm, (Hk w1). simpl.
  eexists; reflexivity.
Qed.


(** The teach calls of a cycle trace: each follows an oracle call on the
    same batch and carries the labels that call returned. *)
Lemma CycleTrace_teach (g : Globals) (batches : list (list nat))
  (cyc : list Event) :
  CycleTrace g batches cyc ->
  forall Xq yq, In (EvTeach Xq yq) cyc ->
  exists b, In b batches /\
    In (EvQuery (X_pool g) (n_instances g) b) cyc /\
    In (EvOracle (map Z.of_nat b) yq) cyc /\
    take (X_pool g) b = Ok Xq /\ take (y_values (df g)) b = Ok yq.
Proof.
  induction 1 as [|b Xq0 vals bs tr HX Hv Hrest IH]; intros Xq yq Hin.
  - destruct Hin.
  - destruct Hin as [Hin|[Hin|[Hin|Hin]]]; try discriminate.
    + injection Hin as <- <-. exists b. simpl. intuition.
    + destruct (IH Xq yq Hin) as (b' & Hb' & Hq & Ho & HX' & Hv').
      exists b'. simpl. intuition.
Qed.

Lemma CycleTrace_teach_count (g : Globals) (batches : list (list nat))
  (cyc : list Event) :
  CycleTrace g batches cyc ->
  length (filter (fun e => match e with EvTeach _ _ => true | _ => false end) cyc)
    = length batches.
Proof. induction 1; simpl; congruence. Qed.

End Properties.

(** ** Sums of labels over a selection *)

Lemma sumZ_binary (l : Labels) : binary l -> sumZ l = count_positive l.
Proof.
  unfold binary, count_positive.
  induction 1 as [|v l Hv _ IH]; [reflexivity|].
  destruct Hv as [-> | ->]; cbn [sumZ filter Z.ltb Z.compare length];
    rewrite IH, ?Nat2Z.inj_succ; lia.
Qed.

Lemma binary_bounds (l : Labels) : binary l -> Forall (fun v => 0 <= v <= 1) l.
Proof.
  unfold binary. intros H. eapply Forall_impl; [|exact H].
  intros v [-> | ->]; lia.
Qed.

(** The builtin [sum] over labels between 0 and [top], when [top] times
    their number fits in an int64. *)
Lemma py_sum_bounded (top : Z) (vals : Labels) :
  Forall (fun v => 0 <= v <= top) vals ->
  top * Z.of_nat (length vals) < 2 ^ 63 ->
  py_sum vals = sumZ vals /\ 0 <= sumZ vals <= top * Z.of_nat (length vals).
Proof.
  intros Hv Hb. pose proof (sumZ_bounds top vals Hv) as Hs.
  split; [|exact Hs].
  apply py_sum_exact; [|lia].
  eapply Forall_impl; [|exact Hv]. intros v; simpl; lia.
Qed.

(** ** The demo world meets the assumptions *)

Lemma window_contract (start n size : nat) :
  (0 < size)%nat ->
  length (Demo.window start n size) = n /\
  Forall (fun i => (i < size)%nat) (Demo.window start n size).
Proof.
  intros Hs. unfold Demo.window. split.
  - now rewrite length_map, length_seq.
  - apply Forall_forall. intros i Hi.
    apply in_map_iff in Hi. destruct Hi as (j & <- & _).
    apply Nat.mod_upper_bound. lia.
Qed.

Lemma g4_pool_of_df : pool_of_df Demo.g4.
Proof. split; reflexivity. Defined.

Lemma g4_query_contract : query_contract Demo.g4.
Proof.
  intros l r. cbv zeta. cbn [al_query Demo.counting_learner fst].
  apply window_contract. cbn. lia.
Qed.

Lemma g4_binary : binary (y_pool Demo.g4).
Proof.
  unfold binary. cbn.
  repeat (constructor; [first [left; reflexivity | right; reflexivity]|]).
  constructor.
Defined.

(** ** The model at work *)

Example wrap64_overflow : add64 (2 ^ 63 - 1) 1 = - 2 ^ 63.
Proof. reflexivity. Qed.

Example take_out_of_range : take [10; 20; 30] [0%nat; 3%nat] = Raise IndexError.
Proof. reflexivity. Qed.

Example take_repeats : take [10; 20; 30] [2%nat; 0%nat; 2%nat] = Ok [30; 10; 30].
Proof. reflexivity. Qed.

(** One cycle on the pool of four: the sample is molecule 1, the learner is
    built on the training set of the globals, the batch is molecules 0 and
    1, and molecule 1 is counted twice. *)
Example g4_one_cycle :
  run_active_learning Demo.g4 (X_pool Demo.g4) (y_pool Demo.g4)
    (oracle Demo.g4) 1 (Demo.world0 1)
  = (Ok 2,
     {| rng := 5%nat;
        trace := [EvChoice 4 1 [1%nat]; EvInit [[1]] [0];
                  EvQuery [[1]; [2]; [3]; [4]] 2 [0%nat; 1%nat];
                  EvOracle [0; 1] [0; 1];
                  EvTeach [[1]; [2]] [0; 1]] |}).
Proof. vm_compute. reflexivity. Qed.

(** A pool of 1000, an initial sample of 10 and three batches of 10: no
    hits when every label is 0, 40 hits when every label is 1. *)
Example all_zero_pool :
  let g := Demo.globals_of (Demo.df_constant 1000 0) 10 10 in
  fst (run_active_learning g (X_pool g) (y_pool g) (oracle g) 3
         (Demo.world0 42)) = Ok 0.
Proof. vm_compute. reflexivity. Qed.

Example all_one_pool :
  let g := Demo.globals_of (Demo.df_constant 1000 1) 10 10 in
  fst (run_active_learning g (X_pool g) (y_pool g) (oracle g) 3
         (Demo.world0 42)) = Ok 40.
Proof. vm_compute. reflexivity. Qed.

(** The baseline on the pool of four with an empty sample. *)
Example baseline_empty_sample :
  random_trial Demo.df4 0 (Demo.world0 7)
  = (Ok 0, {| rng := 8%nat; trace := [EvChoice 4 0 []] |}).
Proof. vm_compute. reflexivity. Qed.

(** ** The trial runner *)

Section Trial.

Context {Rng Learner : Type}.
Context {RS : RandomState Rng} {AL : ActiveLearner Rng Learner}.
Context {FP : Fingerprinter}.

(** A trial on labels between 0 and [top] returns the sum over the
    integers of the labels at its selection. *)
Lemma run_active_learning_hits (g : Globals) (X : Features) (yv : Labels)
  (orc : Oracle) (num_cycles : nat) (w : World Rng) (top : Z) :
  pool_of_df g -> query_contract g -> (0 < len (df g))%nat ->
  (n_initial g <= len (df g))%nat -> length yv = len (df g) ->
  Forall (fun v => 0 <= v <= top) yv ->
  top * Z.of_nat (selection_size (n_initial g) (n_instances g) num_cycles) < 2 ^ 63 ->
  exists init batches cyc vals r',
    run_active_learning g X yv orc num_cycles w
      = (Ok (sumZ vals),
         {| rng := r';
            trace := trace w ++
              EvChoice (len (df g)) (n_initial g) init ::
              EvInit (X_training g) (y_training g) :: cyc |}) /\
    take yv (init ++ concat batches) = Ok vals /\
    length vals = selection_size (n_initial g) (n_instances g) num_cycles /\
    Forall (fun v => 0 <= v <= top) vals /\
    length init = n_initial g /\ length batches = num_cycles /\
    CycleTrace g batches cyc.
Proof.
  intros Hpool Hq Hpos Hn Hy Hlab Hb.
  destruct (run_active_learning_ok g X yv orc num_cycles w Hpool Hq Hpos Hn Hy)
    as (init & batches & cyc & vals & r' & Hrun & Hv & Hlen & _ & _ & Hbl & Hbs & Htr).
  assert (Hsize : length vals = selection_size (n_initial g) (n_instances g) num_cycles).
  { rewrite (take_length _ _ _ Hv), length_app, Hlen.
    rewrite (concat_length_const (n_instances g)), Hbl; [reflexivity|].
    eapply Forall_impl; [|exact Hbs]. now intros b [Hb' _]. }
  pose proof (take_Forall _ _ _ _ Hlab Hv) as Hvals.
  destruct (py_sum_bounded top vals Hvals) as [Hsum _]; [now rewrite Hsize|].
  rewrite Hsum in Hrun.
  exists init, batches, cyc, vals, r'. repeat split; trivial.
Qed.

(** C2: a trial returns a non-negative integer, the sum of the labels [y]
    at its final selection: the [n_initial] indices drawn first, followed by
    the batches of the [num_cycles] queries in the order they were made,
    every occurrence of an index counted.  The sum is written out over the
    labels [y] at those positions, all of which lie inside [y].  Assumed:
    the pool is not empty, the pool arrays are the data frame's columns,
    the query strategy keeps its contract, the initial sample fits in the
    pool, [y] has one label per molecule, and the labels lie between 0 and
    [top] with [top] times the selection size below 2^63. *)
Theorem run_active_learning_sums_selection (g : Globals) (X : Features)
  (yv : Labels) (orc : Oracle) (num_cycles : nat) (w : World Rng) (top : Z) :
  pool_of_df g -> query_contract g -> (0 < len (df g))%nat ->
  (n_initial g <= len (df g))%nat -> length yv = len (df g) ->
  Forall (fun v => 0 <= v <= top) yv ->
  top * Z.of_nat (selection_size (n_initial g) (n_instances g) num_cycles) < 2 ^ 63 ->
  exists init batches cyc hits w',
    run_active_learning g X yv orc num_cycles w = (Ok hits, w') /\
    trace w' = trace w ++
      EvChoice (len (df g)) (n_initial g) init ::
      EvInit (X_training g) (y_training g) :: cyc /\
    CycleTrace g batches cyc /\
    length init = n_initial g /\ length batches = num_cycles /\
    Forall (fun i => (i < length yv)%nat) (init ++ concat batches) /\
    hits = sumZ (labels_at yv (init ++ concat batches)) /\ 0 <= hits.
Proof.
  intros Hpool Hq Hpos Hn Hy Hlab Hb.
  destruct (run_active_learning_hits g X yv orc num_cycles w top
              Hpool Hq Hpos Hn Hy Hlab Hb)
    as (init & batches & cyc & vals & r' & Hrun & Hv & _ & Hvals & Hi & Hbl & Htr).
  pose proof (take_in_range _ _ _ Hv) as Hrange.
  rewrite (take_nth 0 yv _ Hrange) in Hv. injection Hv as Hv.
  fold (labels_at yv (init ++ concat batches)) in Hv. subst vals.
  exists init, batches, cyc, (sumZ (labels_at yv (init ++ concat batches))).
  eexists. split; [exact Hrun|]. repeat split; trivial.
  apply sumZ_nonneg. eapply Forall_impl; [|exact Hvals].
  intros v; simpl; lia.
Qed.

(** C4: on binary labels the hit count of a trial lies between 0 and
    [n_initial + num_cycles * n_instances]; it is 0 when every label is 0
    and [n_initial + num_cycles * n_instances] when every label is 1.
    Assumed as for C2 (a pool that is not empty among the rest), with the
    selection size below 2^63. *)
Theorem hit_count_bounds (g : Globals) (X : Features) (yv : Labels)
  (orc : Oracle) (num_cycles : nat) (w : World Rng) :
  pool_of_df g -> query_contract g -> (0 < len (df g))%nat ->
  (n_initial g <= len (df g))%nat -> length yv = len (df g) ->
  binary yv ->
  Z.of_nat (selection_size (n_initial g) (n_instances g) num_cycles) < 2 ^ 63 ->
  exists hits w',
    run_active_learning g X yv orc num_cycles w = (Ok hits, w') /\
    0 <= hits <= Z.of_nat (selection_size (n_initial g) (n_instances g) num_cycles) /\
    (Forall (fun v => v = 0) yv -> hits = 0) /\
    (Forall (fun v => v = 1) yv ->
     hits = Z.of_nat (selection_size (n_initial g) (n_instances g) num_cycles)).
Proof.
  intros Hpool Hq Hpos Hn Hy Hbin Hb.
  destruct (run_active_learning_hits g X yv orc num_cycles w 1
              Hpool Hq Hpos Hn Hy (binary_bounds _ Hbin))
    as (init & batches & cyc & vals & r' & Hrun & Hv & Hsize & Hvals & _);
    [lia|].
  exists (sumZ vals). eexists. split; [exact Hrun|].
  pose proof (sumZ_bounds 1 vals Hvals) as Hs. rewrite Hsize in Hs.
  split; [lia|]. split; intros Hall.
  - rewrite (sumZ_const 0 vals); [lia|]. eapply take_Forall; eauto.
  - rewrite (sumZ_const 1 vals), Hsize; [lia|]. eapply take_Forall; eauto.
Qed.

(** C5: when the initial sample is larger than the pool, the trial raises
    numpy's "larger sample than population" error at its first statement
    and leaves the world as it found it: no learner is built and no query,
    oracle or teach call is made.  The baseline trial raises the same error
    when its sample size is larger than the pool, and so does the baseline
    loop at its first round. *)
Theorem oversized_sample_rejected_at_start (g : Globals) (X : Features)
  (yv : Labels) (orc : Oracle) (num_cycles : nat) (d : DataFrame)
  (k trials : nat) (hit_counts : list Z) (w : World Rng) :
  ((len (df g) < n_initial g)%nat ->
   run_active_learning g X yv orc num_cycles w
     = (Raise ValueError_larger_sample, w)) /\
  ((len d < k)%nat ->
   random_trial d k w = (Raise ValueError_larger_sample, w) /\
   random_trials d k (S trials) hit_counts w
     = (Raise ValueError_larger_sample, w)).
Proof.
  split; intros Hlt.
  - unfold run_active_learning, bind at 1.
    now rewrite np_random_choice_raises.
  - assert (Ht : random_trial d k w = (Raise ValueError_larger_sample, w)).
    { unfold random_trial, bind at 1. now rewrite np_random_choice_raises. }
    split; [exact Ht|].
    cbn [random_trials]. unfold bind at 1. now rewrite Ht.
Qed.

End Trial.

(** ** Query, oracle and teach *)

Section Teaching.

Context {Rng Learner : Type}.
Context {RS : RandomState Rng} {AL : ActiveLearner Rng Learner}.
Context {FP : Fingerprinter}.

(** C3: in every cycle of a trial the oracle is asked for the labels of the
    queried indices and the learner is then taught that batch: the trial's
    trace consists of the draw, the construction of the learner and
    [num_cycles] groups query / oracle / teach, and every teach call
    carries the pool features at the queried indices and the labels the
    oracle returned for them, which are the labels of the data frame at
    those indices.  The loop passes [y_pool[query_idx]]; it is what the
    oracle returned because [y_pool] is [df.y.values].  The pool is not
    empty. *)
Theorem teach_gets_oracle_labels (g : Globals) (X : Features) (yv : Labels)
  (orc : Oracle) (num_cycles : nat) (w : World Rng) :
  pool_of_df g -> query_contract g -> (0 < len (df g))%nat ->
  (n_initial g <= len (df g))%nat -> length yv = len (df g) ->
  exists init batches cyc hits w',
    run_active_learning g X yv orc num_cycles w = (Ok hits, w') /\
    trace w' = trace w ++
      EvChoice (len (df g)) (n_initial g) init ::
      EvInit (X_training g) (y_training g) :: cyc /\
    CycleTrace g batches cyc /\
    length (filter (fun e => match e with EvTeach _ _ => true | _ => false end) cyc)
      = num_cycles /\
    forall Xq yq, In (EvTeach Xq yq) cyc ->
      exists query_idx,
        In (EvQuery (X_pool g) (n_instances g) query_idx) cyc /\
        In (EvOracle (map Z.of_nat query_idx) yq) cyc /\
        fst (get_values g orc (map Z.of_nat query_idx) w) = Ok yq /\
        yq = labels_at (y_values (df g)) query_idx /\
        take (X_pool g) query_idx = Ok Xq.
Proof.
  intros Hpool Hq Hpos Hn Hy.
  destruct (run_active_learning_ok g X yv orc num_cycles w Hpool Hq Hpos Hn Hy)
    as (init & batches & cyc & vals & r' & Hrun & _ & _ & _ & _ & Hbl & _ & Htr).
  exists init, batches, cyc, (py_sum vals). eexists.
  split; [exact Hrun|]. split; [reflexivity|]. split; [exact Htr|].
  split; [now rewrite (CycleTrace_teach_count g batches cyc Htr)|].
  intros Xq yq Hin.
  destruct (CycleTrace_teach g batches cyc Htr Xq yq Hin)
    as (b & _ & Hquery & Horacle & HX & Hv).
  exists b. repeat split; trivial.
  - unfold get_values. now rewrite np_index_of_nat, Hv.
  - pose proof (take_in_range _ _ _ Hv) as Hr.
    rewrite (take_nth 0 _ _ Hr) in Hv. now injection Hv as <-.
Qed.

(** C10: the data frame given to the [Oracle] constructor plays no part in
    a lookup: two oracles answer alike, with the global data frame's labels
    at the indices; an oracle built on another data frame does not answer
    with that frame's labels. *)
Theorem oracle_ignores_its_dataframe (g : Globals) (d1 d2 : DataFrame)
  (idxs : list Z) (w : World Rng) :
  get_values g {| self_df := d1 |} idxs w
    = get_values g {| self_df := d2 |} idxs w /\
  fst (get_values g {| self_df := d1 |} idxs w)
    = np_index (y_values (df g)) idxs /\
  exists g' d idxs',
    fst (get_values g' {| self_df := d |} idxs' w)
      <> np_index (y_values d) idxs'.
Proof.
  split; [reflexivity|]. split.
  - unfold get_values. now destruct (np_index (y_values (df g)) idxs).
  - exists Demo.g4, [{| smiles := "C"%string; y := 1; fp := [] |}], [0].
    cbn. discriminate.
Qed.

End Teaching.

(** ** Uniform draws *)

Section Uniform.

Context {Rng : Type} {RS : RandomState Rng}.

Local Open Scope nat_scope.

Lemma index_of_spec (x : nat) (l : list nat) :
  In x l -> index_of x l < length l /\ nth (index_of x l) l 0 = x.
Proof.
  induction l as [|a rest IH]; [intros []|]. intros Hin. cbn [index_of].
  destruct (Nat.eqb_spec a x) as [->|Hne].
  - split; [cbn; lia|reflexivity].
  - destruct Hin as [->|Hin]; [contradiction|].
    destruct (IH Hin) as [Hlt Hnth]. split; [cbn; lia|exact Hnth].
Qed.

Lemma index_of_nth (l : list nat) (i : nat) :
  NoDup l -> i < length l -> index_of (nth i l 0) l = i.
Proof.
  intros Hnd Hi.
  assert (Hin : In (nth i l 0) l) by (apply nth_In; exact Hi).
  destruct (index_of_spec _ _ Hin) as [Hlt Hnth].
  apply (proj1 (NoDup_nth l 0) Hnd); assumption.
Qed.

Lemma range_perm_facts (M : nat) (a : list nat) :
  Permutation a (seq 0 M) ->
  NoDup a /\ length a = M /\ forall x, In x a <-> x < M.
Proof.
  intros Hp. split; [|split].
  - eapply Permutation_NoDup; [apply Permutation_sym; exact Hp|apply seq_NoDup].
  - rewrite (Permutation_length Hp). apply length_seq.
  - intros x. split; intros H.
    + apply (Permutation_in _ Hp), in_seq in H. lia.
    + apply (Permutation_in _ (Permutation_sym Hp)), in_seq. lia.
Qed.

Section Relabel.

Variables (M : nat) (a b : list nat).
Hypothesis Ha : Permutation a (seq 0 M).
Hypothesis Hb : Permutation b (seq 0 M).

Lemma relabel_lt (x : nat) : x < M -> relabel a b x < M.
Proof.
  intros Hx.
  destruct (range_perm_facts M a Ha) as (_ & La & Ia).
  destruct (range_perm_facts M b Hb) as (_ & Lb & Ib).
  unfold relabel. rewrite La.
  destruct (Nat.ltb_spec x M) as [_|]; [|lia].
  apply Ib, nth_In. rewrite Lb, <- La.
  apply index_of_spec, Ia, Hx.
Qed.

Lemma relabel_outside (x : nat) : M <= x -> relabel a b x = x.
Proof.
  intros Hx. destruct (range_perm_facts M a Ha) as (_ & La & _).
  unfold relabel. rewrite La.
  destruct (Nat.ltb_spec x M); [lia|reflexivity].
Qed.

End Relabel.

Lemma relabel_inv (M : nat) (a b : list nat) (x : nat) :
  Permutation a (seq 0 M) -> Permutation b (seq 0 M) -> x < M ->
  relabel b a (relabel a b x) = x.
Proof.
  intros Ha Hb Hx.
  pose proof (relabel_lt M a b Ha Hb x Hx) as Hy.
  destruct (range_perm_facts M a Ha) as (Na & La & Ia).
  destruct (range_perm_facts M b Hb) as (Nb & Lb & Ib).
  destruct (index_of_spec x a (proj2 (Ia x) Hx)) as [Hi Hnth].
  unfold relabel in *. rewrite La, Lb in *.
  destruct (Nat.ltb_spec x M) as [_|]; [|lia].
  destruct (Nat.ltb_spec (nth (index_of x a) b 0) M) as [_|]; [|lia].
  rewrite index_of_nth; [exact Hnth|exact Nb|lia].
Qed.

Lemma relabel_inj (M : nat) (a b : list nat) :
  Permutation a (seq 0 M) -> Permutation b (seq 0 M) ->
  forall x y, relabel a b x = relabel a b y -> x = y.
Proof.
  intros Ha Hb x y E.
  destruct (Nat.lt_ge_cases x M) as [Hx|Hx], (Nat.lt_ge_cases y M) as [Hy|Hy].
  - rewrite <- (relabel_inv M a b x Ha Hb Hx), E.
    now apply (relabel_inv M).
  - pose proof (relabel_lt M a b Ha Hb x Hx).
    rewrite (relabel_outside M a b Ha y Hy) in E. lia.
  - pose proof (relabel_lt M a b Ha Hb y Hy).
    rewrite (relabel_outside M a b Ha x Hx) in E. lia.
  - now rewrite !(relabel_outside M a b Ha) in E.
Qed.

Lemma relabel_map (M : nat) (a b : list nat) :
  Permutation a (seq 0 M) -> Permutation b (seq 0 M) ->
  map (relabel a b) a = b.
Proof.
  intros Ha Hb.
  destruct (range_perm_facts M a Ha) as (Na & La & Ia).
  destruct (range_perm_facts M b Hb) as (Nb & Lb & Ib).
  apply (nth_ext _ _ (relabel a b 0) 0).
  - rewrite length_map. congruence.
  - intros i Hi. rewrite length_map in Hi. rewrite map_nth.
    unfold relabel.
    assert (Hin : nth i a 0 < length a) by (rewrite La; apply Ia, nth_In, Hi).
    destruct (Nat.ltb_spec (nth i a 0) (length a)) as [_|]; [|lia].
    now rewrite index_of_nth.
Qed.

Lemma relabel_perm (M : nat) (a b p : list nat) :
  Permutation a (seq 0 M) -> Permutation b (seq 0 M) ->
  Permutation p (seq 0 M) -> Permutation (map (relabel a b) p) (seq 0 M).
Proof.
  intros Ha Hb Hp.
  transitivity (map (relabel a b) a).
  - apply Permutation_map. transitivity (seq 0 M); [exact Hp|].
    now apply Permutation_sym.
  - now rewrite (relabel_map M a b Ha Hb).
Qed.

Lemma relabel_map_inv (M : nat) (a b p : list nat) :
  Permutation a (seq 0 M) -> Permutation b (seq 0 M) ->
  Forall (fun x => x < M) p ->
  map (relabel a b) (map (relabel b a) p) = p.
Proof.
  intros Ha Hb Hp. rewrite map_map. rewrite <- (map_id p) at 2.
  apply map_ext_in. intros x Hx. rewrite Forall_forall in Hp.
  apply (relabel_inv M b a x Hb Ha), Hp, Hx.
Qed.

Lemma map_inj_lists (f : nat -> nat) :
  (forall x y, f x = f y -> x = y) ->
  forall l1 l2 : list nat, map f l1 = map f l2 -> l1 = l2.
Proof.
  intros Hf. induction l1 as [|x l1 IH]; intros [|y l2] E;
    try discriminate; [reflexivity|].
  cbn in E. injection E as E1 E2. f_equal; [now apply Hf|now apply IH].
Qed.

(** A uniform shuffle is unchanged, as a collection, by a renaming of the
    indices. *)
Lemma uniform_relabel (seeds : list Rng) (M : nat) (a b : list nat) :
  uniform_permutations seeds M ->
  Permutation a (seq 0 M) -> Permutation b (seq 0 M) ->
  Permutation
    (map (map (relabel a b)) (map (fun r => fst (permutation r M)) seeds))
    (map (fun r => fst (permutation r M)) seeds).
Proof.
  intros Hu Ha Hb.
  set (F := map (fun r => fst (permutation r M)) seeds).
  assert (HF : forall p, In p F -> Permutation p (seq 0 M)).
  { intros p Hp. apply in_map_iff in Hp. destruct Hp as (r & <- & _).
    apply permutation_perm. }
  assert (Hperm : forall x, Permutation x (seq 0 M) ->
            count_occ (list_eq_dec Nat.eq_dec) (map (map (relabel a b)) F) x
            = count_occ (list_eq_dec Nat.eq_dec) F x).
  { intros x Hx.
    assert (Hxr : Forall (fun i => i < M) x).
    { apply Forall_forall. intros i Hi.
      apply (range_perm_facts M x Hx), Hi. }
    rewrite <- (relabel_map_inv M a b x Ha Hb Hxr) at 1.
    rewrite <- (count_occ_map (map (relabel a b)) (list_eq_dec Nat.eq_dec)
                  (list_eq_dec Nat.eq_dec)
                  (map_inj_lists _ (relabel_inj M a b Ha Hb))).
    apply (Hu (map (relabel b a) x) x); [|exact Hx].
    now apply (relabel_perm M b a x). }
  apply (Permutation_count_occ (list_eq_dec Nat.eq_dec)). intros x.
  destruct (in_dec (list_eq_dec Nat.eq_dec) x F) as [Hin|Hout].
  - apply Hperm, HF, Hin.
  - destruct (in_dec (list_eq_dec Nat.eq_dec) x (map (map (relabel a b)) F))
      as [Hin'|Hout'].
    + apply Hperm. apply in_map_iff in Hin'. destruct Hin' as (p & <- & Hp).
      apply (relabel_perm M a b p Ha Hb), HF, Hp.
    + apply (count_occ_not_In (list_eq_dec Nat.eq_dec)) in Hout.
      apply (count_occ_not_In (list_eq_dec Nat.eq_dec)) in Hout'.
      congruence.
Qed.

(** Under a uniform shuffle, any two samples of [k] distinct indices of
    [range(M)] are drawn by equally many states. *)
Lemma uniform_samples (seeds : list Rng) (M k : nat) (l1 l2 : list nat) :
  uniform_permutations seeds M ->
  NoDup l1 -> NoDup l2 -> length l1 = k -> length l2 = k ->
  Forall (fun i => i < M) l1 -> Forall (fun i => i < M) l2 ->
  tally (fun r => firstn k (fst (permutation r M))) seeds l1
  = tally (fun r => firstn k (fst (permutation r M))) seeds l2.
Proof.
  intros Hu N1 N2 L1 L2 R1 R2.
  destruct (NoDup_incl_extend l1 N1 (seq 0 M)) as [r1 Ha].
  { intros i Hi. rewrite Forall_forall in R1. apply in_seq.
    specialize (R1 i Hi). lia. }
  destruct (NoDup_incl_extend l2 N2 (seq 0 M)) as [r2 Hb].
  { intros i Hi. rewrite Forall_forall in R2. apply in_seq.
    specialize (R2 i Hi). lia. }
  set (sigma := relabel (l1 ++ r1) (l2 ++ r2)).
  assert (Hl2 : l2 = map sigma l1).
  { pose proof (relabel_map M _ _ Ha Hb) as Hm. fold sigma in Hm.
    rewrite map_app in Hm.
    apply (f_equal (firstn k)) in Hm.
    rewrite <- L1 in Hm at 1. rewrite <- (length_map sigma l1) in Hm.
    rewrite firstn_app, firstn_all, Nat.sub_diag, firstn_O, app_nil_r in Hm.
    rewrite <- L2, firstn_app, firstn_all, Nat.sub_diag, firstn_O, app_nil_r
      in Hm.
    now symmetry. }
  unfold tally.
  set (F := map (fun r => fst (permutation r M)) seeds).
  assert (HG : map (fun r => firstn k (fst (permutation r M))) seeds
               = map (firstn k) F)
    by (unfold F; now rewrite map_map).
  rewrite HG.
  pose proof (uniform_relabel seeds M _ _ Hu Ha Hb) as Hp.
  fold sigma in Hp. fold F in Hp.
  apply (Permutation_map (firstn k)) in Hp.
  assert (E : map (firstn k) (map (map sigma) F)
              = map (map sigma) (map (firstn k) F)).
  { rewrite !map_map. apply map_ext. intros p. apply firstn_map. }
  rewrite E in Hp.
  rewrite (proj1 (Permutation_count_occ (list_eq_dec Nat.eq_dec) _ _)
             (Permutation_sym Hp) l2).
  rewrite Hl2.
  apply (count_occ_map (map sigma) (list_eq_dec Nat.eq_dec)
           (list_eq_dec Nat.eq_dec)
           (map_inj_lists _ (relabel_inj M _ _ Ha Hb))).
Qed.

End Uniform.

(** ** The random baseline and the samples *)

Section Sampling.

Context {Rng Learner : Type}.
Context {RS : RandomState Rng} {AL : ActiveLearner Rng Learner}.
Context {FP : Fingerprinter}.

(** A baseline trial draws its sample and then looks the labels up; the
    lookup does not touch the world. *)
Lemma random_trial_draw (d : DataFrame) (k : nat) (w : World Rng) :
  (k <= len d)%nat ->
  exists drawn r',
    random_trial d k w
      = (match take_at (y_values d)
                 {| dtype := range_dtype (len d); items := drawn |} with
         | Ok vals => Ok (py_sum vals)
         | Raise e => Raise e
         end,
         emit w r' (EvChoice (len d) k drawn)) /\
    drawn = firstn k (fst (permutation (rng w) (len d))) /\
    length drawn = k /\ NoDup drawn /\
    Forall (fun i => (i < len d)%nat) drawn.
Proof.
  intros Hk.
  destruct (np_random_choice_ok (len d) k w Hk)
    as (drawn & r' & Hch & Hlen & Hnd & Hrange).
  pose proof (np_random_choice_eq (len d) k w Hk) as Heq.
  rewrite Hch in Heq. injection Heq as Hdrawn Hr'.
  exists drawn, r'.
  unfold random_trial, bind, lift. rewrite Hch.
  split; [|repeat split; trivial].
  destruct (take_at (y_values d) _); reflexivity.
Qed.

Lemma random_trial_ok (d : DataFrame) (k : nat) (w : World Rng) :
  (0 < len d)%nat -> (k <= len d)%nat ->
  exists drawn vals r',
    random_trial d k w
      = (Ok (py_sum vals), emit w r' (EvChoice (len d) k drawn)) /\
    length drawn = k /\ NoDup drawn /\
    Forall (fun i => (i < len d)%nat) drawn /\
    take (y_values d) drawn = Ok vals.
Proof.
  intros Hpos Hk.
  destruct (random_trial_draw d k w Hk)
    as (drawn & r' & Hrun & _ & Hlen & Hnd & Hrange).
  assert (Hr : Forall (fun i => (i < length (y_values d))%nat) drawn)
    by (unfold y_values; rewrite length_map; exact Hrange).
  destruct (take_ok _ _ Hr) as (vals & Hv & _).
  exists drawn, vals, r'.
  rewrite Hrun, (range_dtype_pos _ Hpos). unfold take_at. cbn [dtype items].
  rewrite Hv. repeat split; trivial.
Qed.

(** The sample a baseline trial draws from state [s] is the head of the
    generator's permutation. *)
Lemma baseline_sample_eq (d : DataFrame) (k : nat) (s : Rng) :
  (k <= len d)%nat ->
  baseline_sample d k s = firstn k (fst (permutation s (len d))).
Proof.
  intros Hk. unfold baseline_sample.
  destruct (random_trial_draw d k (fresh s) Hk)
    as (drawn & r' & Hrun & Hdrawn & _).
  rewrite Hrun. cbn. now rewrite app_nil_r.
Qed.

(** C6: for a pool that is not empty and a sample size [k] within it, a
    baseline trial draws [k] distinct indices of the pool and returns the
    number of positive labels among the labels of the data frame at exactly
    those indices; with [k = 0] it draws the empty sample and returns 0.
    The draw is uniform in this sense: when numpy's generator shuffles the
    pool's range uniformly over a population of states, any two samples of
    [k] distinct indices of the pool are drawn by equally many of the
    states.  Labels are binary and [k] is below 2^63. *)
Theorem random_trial_counts_positives (d : DataFrame) (k : nat)
  (w : World Rng) :
  (0 < len d)%nat -> (k <= len d)%nat ->
  binary (y_values d) -> Z.of_nat k < 2 ^ 63 ->
  (exists drawn hits r',
     random_trial d k w = (Ok hits, emit w r' (EvChoice (len d) k drawn)) /\
     length drawn = k /\ NoDup drawn /\
     Forall (fun i => (i < len d)%nat) drawn /\
     hits = count_positive (labels_at (y_values d) drawn) /\
     (k = 0%nat -> drawn = [] /\ hits = 0)) /\
  (forall (seeds : list Rng) (l1 l2 : list nat),
     uniform_permutations seeds (len d) ->
     NoDup l1 -> NoDup l2 -> length l1 = k -> length l2 = k ->
     Forall (fun i => (i < len d)%nat) l1 ->
     Forall (fun i => (i < len d)%nat) l2 ->
     tally (baseline_sample d k) seeds l1
       = tally (baseline_sample d k) seeds l2).
Proof.
  intros Hpos Hk Hbin Hb. split; cycle 1.
  { intros seeds l1 l2 Hu N1 N2 L1 L2 R1 R2. unfold tally.
    rewrite (map_ext _ _ (fun s => baseline_sample_eq d k s Hk)).
    now apply (uniform_samples seeds (len d) k). }
  destruct (random_trial_ok d k w Hpos Hk)
    as (drawn & vals & r' & Hrun & Hlen & Hnd & Hrange & Hv).
  pose proof (take_Forall _ _ _ _ Hbin Hv) as Hvals.
  destruct (py_sum_bounded 1 vals (binary_bounds _ Hvals)) as [Hsum _].
  { rewrite (take_length _ _ _ Hv), Hlen. lia. }
  pose proof (take_in_range _ _ _ Hv) as Hr.
  rewrite (take_nth 0 _ _ Hr) in Hv. injection Hv as Hv.
  fold (labels_at (y_values d) drawn) in Hv. subst vals.
  exists drawn, (count_positive (labels_at (y_values d) drawn)), r'.
  rewrite <- (sumZ_binary _ Hvals), <- Hsum.
  do 5 (split; [trivial|]).
  intros ->. destruct drawn; [|discriminate]. now split.
Qed.


(** C9: a trial started from the same random state, with the same globals
    and arguments, returns the same result, leaves the same random state
    and makes the same calls with the same indices, whatever happened
    before; and so does a baseline trial. *)
Theorem trials_deterministic (g : Globals) (X : Features) (yv : Labels)
  (orc : Oracle) (num_cycles : nat) (d : DataFrame) (k : nat)
  (w1 w2 : World Rng) :
  rng w1 = rng w2 ->
  (exists res r' calls,
     run_active_learning g X yv orc num_cycles w1
       = (res, {| rng := r'; trace := trace w1 ++ calls |}) /\
     run_active_learning g X yv orc num_cycles w2
       = (res, {| rng := r'; trace := trace w2 ++ calls |})) /\
  (exists res r' calls,
     random_trial d k w1 = (res, {| rng := r'; trace := trace w1 ++ calls |}) /\
     random_trial d k w2 = (res, {| rng := r'; trace := trace w2 ++ calls |})).
Proof.
  intros Hseed. split.
  - pose proof (framed_run_active_learning g X yv orc num_cycles) as Hf.
    rewrite (Hf w1), (Hf w2), Hseed. do 3 eexists; split; reflexivity.
  - pose proof (framed_random_trial d k) as Hf.
    rewrite (Hf w1), (Hf w2), Hseed. do 3 eexists; split; reflexivity.
Qed.

End Sampling.

(** ** The running count of actives *)

Section Monotone.

Context {Rng Learner : Type}.
Context {RS : RandomState Rng} {AL : ActiveLearner Rng Learner}.
Context {FP : Fingerprinter}.

Lemma bind_ret_r {A : Type} (m : M Rng A) (w : World Rng) :
  bind m ret w = m w.
Proof. unfold bind, ret. now destruct (m w) as [[a|e] w']. Qed.

(** One more round of the loop is the loop followed by its body. *)
Lemma cycles_snoc (g : Globals) (orc : Oracle) (n : nat) :
  forall st w,
    cycles g orc (S n) st w = bind (cycles g orc n st) (cycle g orc) w.
Proof.
  induction n as [|n IH]; intros st w.
  - cbn [cycles]. rewrite bind_ret_r. reflexivity.
  - change (cycles g orc (S (S n)) st w)
      with (bind (cycle g orc st) (cycles g orc (S n)) w).
    change (cycles g orc (S n) st)
      with (bind (cycle g orc st) (cycles g orc n)).
    unfold bind.
    destruct (cycle g orc st w) as [[st'|e] w']; [|reflexivity].
    rewrite IH. reflexivity.
Qed.

(** A trial is its draw, the construction of the learner, the loop and the
    final sum. *)
Lemma run_active_learning_steps (g : Globals) (X : Features) (yv : Labels)
  (orc : Oracle) (n : nat) (w w0 w1 w2 : World Rng) (init pick : IndexArray)
  (l0 l' : Learner) (vals : Labels) :
  np_random_choice (len (df g)) (n_initial g) w = (Ok init, w0) ->
  ActiveLearner_new (X_training g) (y_training g) w0 = (Ok l0, w1) ->
  cycles g orc n (l0, init) w1 = (Ok (l', pick), w2) ->
  take_at yv pick = Ok vals ->
  run_active_learning g X yv orc n w = (Ok (py_sum vals), w2).
Proof.
  intros Hch Hnew Hcs Hv.
  unfold run_active_learning, bind, lift.
  now rewrite Hch, Hnew, Hcs, Hv.
Qed.

Lemma bounded_nonneg (top : Z) (l : Labels) :
  Forall (fun v => 0 <= v <= top) l -> Forall (fun v => 0 <= v) l.
Proof. intros H. eapply Forall_impl; [|exact H]. intros v; simpl; lia. Qed.

(** The body of the printing loop: the number printed is the sum of the
    labels at the selection so far. *)
Lemma cycle_print_ok (g : Globals) (l : Learner) (pick : list nat)
  (printed : list Z) (w : World Rng) (vals0 : Labels) (top : Z) :
  pool_of_df g -> query_contract g ->
  Forall (fun v => 0 <= v <= top) (y_pool g) ->
  take (y_pool g) pick = Ok vals0 ->
  top * Z.of_nat (length pick + n_instances g) < 2 ^ 63 ->
  exists b vb l' w',
    cycle_print g (l, int_array pick, printed) w
      = (Ok (l', int_array (pick ++ b), printed ++ [sumZ vals0 + sumZ vb]),
         w') /\
    take (y_pool g) (pick ++ b) = Ok (vals0 ++ vb) /\
    length b = n_instances g /\ 0 <= sumZ vb.
Proof.
  intros Hpool Hq Hlab Hv0 Hb.
  destruct (pool_lengths g Hpool) as (LX & Ly & Lv).
  specialize (Hq l (rng w)). cbv zeta in Hq.
  unfold cycle_print, bind, learner_query.
  destruct (al_query l (X_pool g) (n_instances g) (rng w)) as [b r1] eqn:EQ.
  simpl in Hq. destruct Hq as [Hlen Hrange].
  destruct (take_ok (X_pool g) b Hrange) as (Xq & HX & _).
  assert (Hrange' : Forall (fun i => (i < length (y_pool g))%nat) b)
    by (rewrite Ly, <- LX; exact Hrange).
  destruct (take_ok _ b Hrange') as (vb & Hvb & _).
  pose proof Hpool as [_ Hy].
  unfold get_values, lift. rewrite np_index_of_nat, <- Hy, Hvb, HX.
  unfold learner_teach, emit; simpl.
  destruct (al_teach l Xq vb r1) as [l' r2] eqn:ET.
  pose proof (take_app _ _ _ _ _ Hv0 Hvb) as Hall.
  rewrite np_append_int. unfold take_at. cbn [dtype items int_array].
  rewrite Hall.
  pose proof (take_Forall _ _ _ _ Hlab Hall) as Hvals.
  destruct (py_sum_bounded top _ Hvals) as [Hsum _].
  { rewrite (take_length _ _ _ Hall), length_app, Hlen. exact Hb. }
  rewrite Hsum, sumZ_app. unfold ret.
  exists b, vb, l'. eexists. repeat split; trivial.
  apply sumZ_nonneg, (bounded_nonneg top).
  exact (take_Forall _ (y_pool g) b vb Hlab Hvb).
Qed.

Lemma cycles_print_ok (g : Globals) (top : Z) (n : nat) :
  pool_of_df g -> query_contract g ->
  Forall (fun v => 0 <= v <= top) (y_pool g) ->
  forall (l : Learner) (pick : list nat) (printed0 : list Z) (w : World Rng)
         (vals0 : Labels),
  take (y_pool g) pick = Ok vals0 ->
  top * Z.of_nat (length pick + n * n_instances g) < 2 ^ 63 ->
  exists l' pick' printed w',
    cycles_print g n (l, int_array pick, printed0) w
      = (Ok (l', pick', printed0 ++ printed), w') /\
    length printed = n /\ Sorted Z.le (sumZ vals0 :: printed).
Proof.
  intros Hpool Hq Hlab. induction n as [|n IH]; intros l pick printed0 w vals0 Hv0 Hb.
  - exists l, (int_array pick), [], w. cbn [cycles_print]. unfold ret.
    rewrite app_nil_r. repeat split. repeat constructor.
  - assert (Hlabs : Forall (fun v => 0 <= v <= top) vals0)
      by (eapply take_Forall; eauto).
    assert (Htop : 0 <= top \/ pick = []).
    { destruct pick as [|i rest]; [now right|left].
      simpl in Hv0. destruct (nth_error (y_pool g) i) as [v|] eqn:E; [|discriminate].
      apply nth_error_In in E. rewrite Forall_forall in Hlab.
      specialize (Hlab v E). lia. }
    destruct (cycle_print_ok g l pick printed0 w vals0 top Hpool Hq Hlab Hv0)
      as (b & vb & l1 & w1 & Hc & Hall & Hlen & Hvb).
    { destruct Htop as [Htop| ->]; [nia|].
      simpl length in *. destruct (Z.le_gt_cases 0 top); nia. }
    cbn [cycles_print]. unfold bind at 1. rewrite Hc.
    destruct (IH l1 (pick ++ b) (printed0 ++ [sumZ vals0 + sumZ vb]) w1
                (vals0 ++ vb) Hall)
      as (l' & pick' & printed & w' & Hcs & Hpl & Hsorted).
    { rewrite length_app, Hlen.
      replace (length pick + n_instances g + n * n_instances g)%nat
        with (length pick + S n * n_instances g)%nat by lia.
      exact Hb. }
    exists l', pick', ((sumZ vals0 + sumZ vb) :: printed), w'.
    rewrite Hcs, <- app_assoc. split; [reflexivity|].
    split; [simpl; congruence|].
    rewrite sumZ_app in Hsorted.
    constructor; [exact Hsorted|]. constructor. lia.
Qed.

Lemma ActiveLearner_new_ok (X : Features) (yv : Labels) (w : World Rng) :
  exists l w1, ActiveLearner_new X yv w = (Ok l, w1).
Proof.
  unfold ActiveLearner_new. destruct (al_init X yv (rng w)) as [l r'].
  now eexists _, _.
Qed.

(** The hit count of a trial with one more cycle is at least as large. *)
Lemma run_active_learning_one_more (g : Globals) (X : Features) (yv : Labels)
  (orc : Oracle) (i : nat) (w : World Rng) (top : Z) :
  pool_of_df g -> query_contract g -> (0 < len (df g))%nat ->
  (n_initial g <= len (df g))%nat -> length yv = len (df g) ->
  Forall (fun v => 0 <= v <= top) yv ->
  top * Z.of_nat (selection_size (n_initial g) (n_instances g) (S i)) < 2 ^ 63 ->
  exists h1 w1 h2 w2,
    run_active_learning g X yv orc i w = (Ok h1, w1) /\
    run_active_learning g X yv orc (S i) w = (Ok h2, w2) /\
    h1 <= h2.
Proof.
  intros Hpool Hq Hpos Hn Hy Hlab Hb.
  destruct (pool_lengths g Hpool) as (LX & _ & _).
  destruct (np_random_choice_ok (len (df g)) (n_initial g) w Hn)
    as (init & r0 & Hch & Hlen & _ & Hrange).
  rewrite (range_dtype_pos _ Hpos) in Hch.
  destruct (ActiveLearner_new_ok (X_training g) (y_training g)
              (emit w r0 (EvChoice (len (df g)) (n_initial g) init)))
    as (l0 & wa & Hnew).
  destruct (cycles_ok g orc i Hpool Hq l0
              {| dtype := int64; items := init |} wa)
    as (batches & cyc & l1 & r1 & Hcs & Hbl & Hbs & _).
  cbn [dtype items] in Hcs.
  destruct (cycle_ok g orc l1
              {| dtype := int64; items := init ++ concat batches |}
              {| rng := r1; trace := trace wa ++ cyc |} Hpool Hq)
    as (b & Xq & vb' & l2 & r2 & Hc & [Hblen Hbrange] & _ & _).
  cbn [dtype items] in Hc.
  assert (Hnext : cycles g orc (S i) (l0, {| dtype := int64; items := init |}) wa
                  = (Ok (l2, {| dtype := int64;
                                items := (init ++ concat batches) ++ b |}),
                     {| rng := r2;
                        trace := trace {| rng := r1; trace := trace wa ++ cyc |} ++
                          [EvQuery (X_pool g) (n_instances g) b;
                           EvOracle (map Z.of_nat b) vb'; EvTeach Xq vb'] |})).
  { rewrite cycles_snoc. unfold bind. rewrite Hcs. exact Hc. }
  assert (Hsel : Forall (fun j => (j < length yv)%nat) (init ++ concat batches)).
  { rewrite Hy. apply Forall_app; split; [exact Hrange|].
    apply Forall_concat. eapply Forall_impl; [|exact Hbs].
    intros c [_ Hc']; exact Hc'. }
  destruct (take_ok yv _ Hsel) as (vals1 & Hv1 & Hl1).
  assert (Hbr : Forall (fun j => (j < length yv)%nat) b) by (now rewrite Hy).
  destruct (take_ok yv _ Hbr) as (vb & Hvb & Hlb).
  pose proof (take_app _ _ _ _ _ Hv1 Hvb) as Hv2.
  pose proof (run_active_learning_steps g X yv orc i _ _ _ _ _ _ _ _ _
                Hch Hnew Hcs Hv1) as Hrun1.
  pose proof (run_active_learning_steps g X yv orc (S i) _ _ _ _ _ _ _ _ _
                Hch Hnew Hnext Hv2) as Hrun2.
  pose proof (take_Forall _ _ _ _ Hlab Hv1) as Hlab1.
  pose proof (take_Forall _ _ _ _ Hlab Hvb) as Hlabb.
  pose proof (take_Forall _ _ _ _ Hlab Hv2) as Hlab2.
  pose proof (sumZ_nonneg _ (bounded_nonneg top _ Hlab1)) as Hs1.
  pose proof (sumZ_nonneg _ (bounded_nonneg top _ Hlabb)) as Hsb.
  pose proof (sumZ_bounds top _ Hlab2) as Hs2.
  assert (Hsize : length (vals1 ++ vb)
                  = selection_size (n_initial g) (n_instances g) (S i)).
  { rewrite length_app, Hl1, Hlb, length_app, Hlen, Hblen.
    rewrite (concat_length_const (n_instances g)), Hbl.
    - unfold selection_size. lia.
    - eapply Forall_impl; [|exact Hbs]. now intros c [Hc' _]. }
  rewrite Hsize, sumZ_app in Hs2.
  rewrite (py_sum_exact vals1) in Hrun1;
    [|exact (bounded_nonneg top _ Hlab1)|lia].
  rewrite (py_sum_exact (vals1 ++ vb)) in Hrun2;
    [|exact (bounded_nonneg top _ Hlab2)|rewrite sumZ_app; lia].
  eexists _, _, _, _. split; [exact Hrun1|]. split; [exact Hrun2|].
  rewrite sumZ_app. lia.
Qed.

(** C8: the running hit count never decreases from one cycle to the next
    when the labels are non-negative.  For the trial function, the count
    over the selection after [i + 1] cycles is at least the count after
    [i] cycles; for the printing loop of the first pass, the numbers printed
    are sorted.  The pool is not empty, labels lie between 0 and [top],
    and [top] times the selection size stays below 2^63. *)
Theorem cumulative_hits_monotone (g : Globals) (X : Features) (yv : Labels)
  (orc : Oracle) (i : nat) (w : World Rng) (top : Z) :
  pool_of_df g -> query_contract g -> (0 < len (df g))%nat ->
  (n_initial g <= len (df g))%nat -> length yv = len (df g) ->
  Forall (fun v => 0 <= v <= top) yv ->
  Forall (fun v => 0 <= v <= top) (y_pool g) ->
  top * Z.of_nat (selection_size (n_initial g) (n_instances g) (S i)) < 2 ^ 63 ->
  (exists h1 w1 h2 w2,
     run_active_learning g X yv orc i w = (Ok h1, w1) /\
     run_active_learning g X yv orc (S i) w = (Ok h2, w2) /\
     h1 <= h2) /\
  (forall (l : Learner) (pick_list : list nat) (printed0 : list Z),
     length pick_list = n_initial g ->
     Forall (fun j => (j < len (df g))%nat) pick_list ->
     exists l' pick_list' printed w',
       cycles_print g (S i) (l, int_array pick_list, printed0) w
         = (Ok (l', pick_list', printed0 ++ printed), w') /\
       length printed = S i /\ Sorted Z.le printed).
Proof.
  intros Hpool Hq Hpos Hn Hy Hlab Hlabp Hb. split.
  - now apply (run_active_learning_one_more g X yv orc i w top).
  - intros l pick printed0 Hlen Hrange.
    destruct (pool_lengths g Hpool) as (_ & Ly & _).
    assert (Hr : Forall (fun j => (j < length (y_pool g))%nat) pick)
      by (now rewrite Ly).
    destruct (take_ok _ _ Hr) as (vals0 & Hv0 & _).
    destruct (cycles_print_ok g top (S i) Hpool Hq Hlabp l pick printed0 w
                vals0 Hv0)
      as (l' & pick' & printed & w' & Hrun & Hpl & Hsorted).
    { rewrite Hlen. exact Hb. }
    exists l', pick', printed, w'. repeat split; trivial.
    now apply Sorted_inv in Hsorted.
Qed.

End Monotone.

(** ** The training set of a trial *)

Section Training.

Context {Rng Learner : Type}.
Context {RS : RandomState Rng} {AL : ActiveLearner Rng Learner}.
Context {FP : Fingerprinter}.

(** The globals the first pass leaves behind: the pool is the data frame's
    columns, both sizes are 100, and the training set is the pool at the
    initial sample drawn by that pass. *)
Lemma np_stack_ok (arrays : list Fingerprint) (X : Features) :
  np_stack arrays = Ok X -> X = arrays /\ arrays <> [].
Proof.
  unfold np_stack. destruct arrays as [|a rest]; [discriminate|].
  destruct (forallb (fun b => (length b =? length a)%nat) rest);
    [|discriminate].
  intros [= <-]. split; [reflexivity|discriminate].
Qed.

Lemma notebook_globals (csv : list (option string * Z)) (w w' : World Rng)
  (g : Globals) (printed : list Z) :
  notebook csv w = (Ok (g, printed), w') ->
  read_screen csv = Ok (df g) /\
  pool_of_df g /\ n_initial g = 100%nat /\ n_instances g = 100%nat /\
  dtype (initial_list g) = int64 /\
  length (items (initial_list g)) = 100%nat /\
  take_at (X_pool g) (initial_list g) = Ok (X_training g) /\
  take_at (y_pool g) (initial_list g) = Ok (y_training g).
Proof.
  unfold notebook, bind, lift. intros H.
  destruct (read_screen csv) as [d|e] eqn:Hread; [|discriminate].
  destruct (np_stack (fp_values d)) as [Xp|e] eqn:Hstack; [|discriminate].
  apply np_stack_ok in Hstack. destruct Hstack as [-> Hne].
  destruct (np_random_choice (len d) 100 w)
    as [[init|e] w0] eqn:Hch; [|discriminate].
  destruct (take_at (fp_values d) init) as [Xt|e] eqn:HX; [|discriminate].
  destruct (take_at (y_values d) init) as [yt|e] eqn:Hy; [|discriminate].
  destruct (ActiveLearner_new Xt yt w0) as [[l|e] w1]; [|discriminate].
  match type of H with
  | context [cycles_print ?g0 10 ?st w1] =>
      destruct (cycles_print g0 10 st w1) as [[[[l' pk] pr]|e] w2];
        [|discriminate]
  end.
  injection H as <- <- <-. cbn.
  assert (Hle : (100 <= len d)%nat).
  { unfold np_random_choice in Hch.
    destruct (Nat.ltb_spec (len d) 100) as [|Hle]; [discriminate|exact Hle]. }
  destruct (np_random_choice_ok (len d) 100 w Hle)
    as (drawn & r' & Hch' & Hlen & _).
  rewrite Hch in Hch'. injection Hch' as -> _.
  rewrite range_dtype_pos in * by lia.
  repeat split; trivial.
Qed.

(** Whatever sample a trial draws, its learner is built on the globals
    [X_training] and [y_training]. *)
Lemma trial_fits_global_training_set (g : Globals) (X : Features)
  (yv : Labels) (orc : Oracle) (num_cycles : nat) (w : World Rng) :
  (n_initial g <= len (df g))%nat ->
  exists init rest,
    trace (snd (run_active_learning g X yv orc num_cycles w))
      = trace w ++ EvChoice (len (df g)) (n_initial g) init ::
                   EvInit (X_training g) (y_training g) :: rest.
Proof.
  intros Hn.
  destruct (np_random_choice_ok (len (df g)) (n_initial g) w Hn)
    as (init & r0 & Hch & _).
  destruct (ActiveLearner_new_ok (X_training g) (y_training g)
              (emit w r0 (EvChoice (len (df g)) (n_initial g) init)))
    as (l0 & wa & Hnew).
  assert (Hwa : trace wa = trace w ++
            [EvChoice (len (df g)) (n_initial g) init;
             EvInit (X_training g) (y_training g)]).
  { unfold ActiveLearner_new in Hnew.
    destruct (al_init (X_training g) (y_training g) _).
    injection Hnew as _ <-. simpl. now rewrite <- app_assoc. }
  unfold run_active_learning, bind at 1. rewrite Hch.
  eapply bind_trace_first in Hnew as [rest Hrest].
  - exists init, rest. rewrite Hrest, Hwa, <- app_assoc. reflexivity.
  - apply framed_bind; [apply framed_cycles|intros [l' pick]].
    apply framed_bind; [apply framed_lift|intros picked].
    apply framed_ret.
Qed.

End Training.

(** C1 fails on the code.  The notebook is run on a pool of 1000 molecules
    from its first cell to the first trial.  The first pass draws the
    molecules 0..99 and sets the training set to the pool at those indices.
    The trial draws the molecules 32..131, but its learner is built on the
    training set of the first pass, which is not the pool at the indices
    the trial drew. *)
Example first_trial_trains_on_stale_sample :
  match session_until_first_trial (Demo.csv_alkanes 1000) (Demo.world0 0) with
  | (Ok (g, num_hits), w) =>
      initial_list g = int_array (seq 0 100) /\
      take_at (X_pool g) (initial_list g) = Ok (X_training g) /\
      take_at (y_pool g) (initial_list g) = Ok (y_training g) /\
      last (drawn_samples (trace w)) [] = seq 32 100 /\
      last (fitted_sets (trace w)) ([], []) = (X_training g, y_training g) /\
      take (X_pool g) (seq 32 100) <> Ok (X_training g) /\
      take (y_pool g) (seq 32 100) <> Ok (y_training g)
  | _ => False
  end.
Proof.
  vm_compute.
  repeat (split; [reflexivity|]).
  split; discriminate.
Qed.

(** ** The statements at a concrete pool

    Each statement with assumptions is applied to the pool of four
    molecules, in the demo world. *)

Lemma run_active_learning_sums_selection_witness :
  exists init batches cyc hits w',
    run_active_learning Demo.g4 (X_pool Demo.g4) (y_pool Demo.g4)
      (oracle Demo.g4) 3 (Demo.world0 1) = (Ok hits, w') /\
    trace w' = trace (Demo.world0 1) ++
      EvChoice (len (df Demo.g4)) (n_initial Demo.g4) init ::
      EvInit (X_training Demo.g4) (y_training Demo.g4) :: cyc /\
    CycleTrace Demo.g4 batches cyc /\
    length init = n_initial Demo.g4 /\ length batches = 3%nat /\
    Forall (fun i => (i < length (y_pool Demo.g4))%nat)
      (init ++ concat batches) /\
    hits = sumZ (labels_at (y_pool Demo.g4) (init ++ concat batches)) /\
    0 <= hits.
Proof.
  apply (run_active_learning_sums_selection Demo.g4 (X_pool Demo.g4)
           (y_pool Demo.g4) (oracle Demo.g4) 3 (Demo.world0 1) 1).
  - exact g4_pool_of_df.
  - exact g4_query_contract.
  - cbn; lia.
  - cbn; lia.
  - reflexivity.
  - exact (binary_bounds _ g4_binary).
  - vm_compute; reflexivity.
Defined.

Lemma teach_gets_oracle_labels_witness :
  exists init batches cyc hits w',
    run_active_learning Demo.g4 (X_pool Demo.g4) (y_pool Demo.g4)
      (oracle Demo.g4) 3 (Demo.world0 1) = (Ok hits, w') /\
    trace w' = trace (Demo.world0 1) ++
      EvChoice (len (df Demo.g4)) (n_initial Demo.g4) init ::
      EvInit (X_training Demo.g4) (y_training Demo.g4) :: cyc /\
    CycleTrace Demo.g4 batches cyc.
Proof.
  destruct (teach_gets_oracle_labels Demo.g4 (X_pool Demo.g4)
              (y_pool Demo.g4) (oracle Demo.g4) 3 (Demo.world0 1))
    as (init & batches & cyc & hits & w' & Hrun & Htrace & Hcyc & _).
  - exact g4_pool_of_df.
  - exact g4_query_contract.
  - cbn; lia.
  - cbn; lia.
  - reflexivity.
  - exists init, batches, cyc, hits, w'. now repeat split.
Defined.

Lemma hit_count_bounds_witness :
  exists hits w',
    run_active_learning Demo.g4 (X_pool Demo.g4) (y_pool Demo.g4)
      (oracle Demo.g4) 3 (Demo.world0 1) = (Ok hits, w') /\
    0 <= hits <= 7.
Proof.
  destruct (hit_count_bounds Demo.g4 (X_pool Demo.g4) (y_pool Demo.g4)
              (oracle Demo.g4) 3 (Demo.world0 1))
    as (hits & w' & Hrun & Hbounds & _).
  - exact g4_pool_of_df.
  - exact g4_query_contract.
  - cbn; lia.
  - cbn; lia.
  - reflexivity.
  - exact g4_binary.
  - vm_compute; reflexivity.
  - exists hits, w'. split; [exact Hrun|exact Hbounds].
Defined.

Lemma oversized_sample_rejected_at_start_witness :
  run_active_learning Demo.g4_oversized (X_pool Demo.g4) (y_pool Demo.g4)
    (oracle Demo.g4) 10 (Demo.world0 0)
    = (Raise ValueError_larger_sample, Demo.world0 0) /\
  random_trial Demo.df4 1000 (Demo.world0 0)
    = (Raise ValueError_larger_sample, Demo.world0 0).
Proof.
  destruct (oversized_sample_rejected_at_start Demo.g4_oversized
              (X_pool Demo.g4) (y_pool Demo.g4) (oracle Demo.g4) 10
              Demo.df4 1000 9 [] (Demo.world0 0)) as [Htrial Hbase].
  split.
  - apply Htrial. cbn; lia.
  - apply Hbase. cbn; lia.
Defined.

Lemma df2_binary : binary (y_values Demo.df2).
Proof.
  unfold binary. cbn.
  repeat (constructor; [first [left; reflexivity | right; reflexivity]|]).
  constructor.
Defined.

(** Over the two states 0 and 1 the demo generator shuffles a pool of two
    uniformly. *)
Lemma demo_uniform2 :
  uniform_permutations (RS := Demo.counter_rng) [0%nat; 1%nat] 2.
Proof.
  intros p q Hp Hq.
  apply Permutation_sym, Permutation_length_2_inv in Hp.
  apply Permutation_sym, Permutation_length_2_inv in Hq.
  destruct Hp as [-> | ->], Hq as [-> | ->]; reflexivity.
Qed.

Lemma random_trial_counts_positives_witness :
  (exists drawn hits r',
     random_trial Demo.df2 1 (Demo.world0 1)
       = (Ok hits, emit (Demo.world0 1) r' (EvChoice (len Demo.df2) 1 drawn)) /\
     length drawn = 1%nat /\ NoDup drawn /\
     hits = count_positive (labels_at (y_values Demo.df2) drawn)) /\
  tally (baseline_sample Demo.df2 1) [0%nat; 1%nat] [0%nat]
    = tally (baseline_sample Demo.df2 1) [0%nat; 1%nat] [1%nat].
Proof.
  destruct (random_trial_counts_positives Demo.df2 1 (Demo.world0 1))
    as [(drawn & hits & r' & Hrun & Hlen & Hnd & _ & Hhits & _) Huniform].
  - cbn; lia.
  - cbn; lia.
  - exact df2_binary.
  - vm_compute; reflexivity.
  - split.
    + exists drawn, hits, r'. now repeat split.
    + apply Huniform.
      * exact demo_uniform2.
      * repeat constructor. intros [].
      * repeat constructor. intros [].
      * reflexivity.
      * reflexivity.
      * repeat constructor.
      * repeat constructor.
Defined.


Lemma cumulative_hits_monotone_witness :
  exists h1 w1 h2 w2,
    run_active_learning Demo.g4 (X_pool Demo.g4) (y_pool Demo.g4)
      (oracle Demo.g4) 2 (Demo.world0 1) = (Ok h1, w1) /\
    run_active_learning Demo.g4 (X_pool Demo.g4) (y_pool Demo.g4)
      (oracle Demo.g4) 3 (Demo.world0 1) = (Ok h2, w2) /\
    h1 <= h2.
Proof.
  destruct (cumulative_hits_monotone Demo.g4 (X_pool Demo.g4)
              (y_pool Demo.g4) (oracle Demo.g4) 2 (Demo.world0 1) 1)
    as [Htrial _].
  - exact g4_pool_of_df.
  - exact g4_query_contract.
  - cbn; lia.
  - cbn; lia.
  - reflexivity.
  - exact (binary_bounds _ g4_binary).
  - exact (binary_bounds _ g4_binary).
  - vm_compute; reflexivity.
  - exact Htrial.
Defined.

Lemma trials_deterministic_witness :
  exists res r' calls,
    run_active_learning Demo.g4 (X_pool Demo.g4) (y_pool Demo.g4)
      (oracle Demo.g4) 3 (Demo.world0 1)
      = (res, {| rng := r'; trace := trace (Demo.world0 1) ++ calls |}) /\
    run_active_learning Demo.g4 (X_pool Demo.g4) (y_pool Demo.g4)
      (oracle Demo.g4) 3 (Demo.world_later 1)
      = (res, {| rng := r'; trace := trace (Demo.world_later 1) ++ calls |}).
Proof.
  destruct (trials_deterministic Demo.g4 (X_pool Demo.g4) (y_pool Demo.g4)
              (oracle Demo.g4) 3 Demo.df4 2 (Demo.world0 1)
              (Demo.world_later 1)) as [Htrial _].
  - reflexivity.
  - exact Htrial.
Defined.

(** * Further properties of the notebook's code *)

(** ** Index arrays *)

Lemma sumZ_perm (l l' : list Z) : Permutation l l' -> sumZ l = sumZ l'.
Proof. induction 1; simpl; lia. Qed.

Lemma map_nth_seq {A : Type} (d : A) (a : list A) :
  map (fun i => nth i a d) (seq 0 (length a)) = a.
Proof.
  induction a as [|x a IH]; [reflexivity|].
  cbn [length seq map nth]. f_equal.
  rewrite <- seq_shift, map_map. exact IH.
Qed.

(** Labels read at distinct indices add up to at most the sum of all
    labels, when no label is negative. *)
Lemma take_NoDup_sum_le (a vals : Labels) (idx : list nat) :
  Forall (fun v => 0 <= v) a -> NoDup idx -> take a idx = Ok vals ->
  sumZ vals <= sumZ a.
Proof.
  intros Ha Hnd Hv.
  pose proof (take_in_range _ _ _ Hv) as Hrange.
  rewrite (take_nth 0 a idx Hrange) in Hv. injection Hv as <-.
  destruct (NoDup_incl_extend idx Hnd (seq 0 (length a))) as [rest Hrest].
  { intros i Hi. rewrite Forall_forall in Hrange.
    apply in_seq. specialize (Hrange i Hi). lia. }
  replace (sumZ a)
    with (sumZ (map (fun i => nth i a 0) (seq 0 (length a))))
    by (now rewrite map_nth_seq).
  rewrite <- (sumZ_perm _ _ (Permutation_map _ Hrest)), map_app, sumZ_app.
  assert (0 <= sumZ (map (fun i => nth i a 0) rest)); [|lia].
  apply sumZ_nonneg, Forall_forall. intros v Hin.
  apply in_map_iff in Hin. destruct Hin as (i & <- & _).
  destruct (Nat.lt_ge_cases i (length a)) as [Hi|Hi].
  - rewrite Forall_forall in Ha. apply Ha, nth_In, Hi.
  - rewrite nth_overflow; [lia|exact Hi].
Qed.

Lemma demo_query_contract (g : Globals) :
  (0 < length (X_pool g))%nat -> query_contract (Rng := nat) (Learner := nat) g.
Proof.
  intros Hpos l r. cbv zeta. cbn [al_query Demo.counting_learner fst].
  now apply window_contract.
Qed.

Section Lookup.

Context {Rng Learner : Type}.
Context {RS : RandomState Rng} {AL : ActiveLearner Rng Learner}.
Context {FP : Fingerprinter}.

(** X1: an oracle lookup takes integer indices of either sign.  With [M]
    rows in the global data frame, it succeeds exactly when every index lies
    in [-M, M): it then returns one label per index, the label of the
    global data frame at the index, or at [M + i] for a negative index [i],
    repeated indices included, and records the call.  If some index lies
    outside [-M, M) it raises IndexError and leaves the world untouched. *)
Theorem get_values_in_range (g : Globals) (self : Oracle)
  (idx_list : list Z) (w : World Rng) :
  (Forall (fun i => - Z.of_nat (len (df g)) <= i < Z.of_nat (len (df g)))
     idx_list ->
   exists vals,
     get_values g self idx_list w
       = (Ok vals, emit w (rng w) (EvOracle idx_list vals)) /\
     vals = map (fun i =>
                   nth (Z.to_nat (if i <? 0 then Z.of_nat (len (df g)) + i
                                  else i))
                       (y_values (df g)) 0) idx_list) /\
  (~ Forall (fun i => - Z.of_nat (len (df g)) <= i < Z.of_nat (len (df g)))
       idx_list ->
   get_values g self idx_list w = (Raise IndexError, w)).
Proof.
  assert (Hl : length (y_values (df g)) = len (df g))
    by (unfold y_values, len; apply length_map).
  unfold get_values. split; intros H.
  - rewrite (np_index_inside 0); [|now rewrite Hl].
    eexists; split; [reflexivity|].
    apply map_ext_in. intros i Hi. rewrite Forall_forall in H.
    specialize (H i Hi). rewrite Hl. do 2 f_equal.
    destruct (Z.ltb_spec i 0) as [Hneg|Hnn].
    + rewrite <- (Z_mod_plus_full i 1 (Z.of_nat (len (df g)))).
      rewrite Z.mod_small; lia.
    + rewrite Z.mod_small; lia.
  - rewrite np_index_outside; [reflexivity|now rewrite Hl].
Qed.

(** On pool positions a lookup is [take] on the labels of the global data
    frame. *)
Lemma get_values_positions (g : Globals) (self : Oracle) (idx : list nat)
  (w : World Rng) :
  get_values g self (map Z.of_nat idx) w
  = match take (y_values (df g)) idx with
    | Ok vals => (Ok vals, emit w (rng w) (EvOracle (map Z.of_nat idx) vals))
    | Raise e => (Raise e, w)
    end.
Proof. unfold get_values. now rewrite np_index_of_nat. Qed.

(** X2: when the query strategy hands back an index outside the data
    frame, the cycle stops with IndexError at the oracle lookup: the query
    has been made, the learner is not taught, and a loop of one or more
    cycles ends there. *)
Theorem cycle_out_of_range_query (g : Globals) (orc : Oracle) (l : Learner)
  (pick_list : IndexArray) (query_idx : list nat) (w : World Rng) (r' : Rng)
  (n : nat) :
  al_query l (X_pool g) (n_instances g) (rng w) = (query_idx, r') ->
  ~ Forall (fun i => (i < len (df g))%nat) query_idx ->
  cycle g orc (l, pick_list) w
    = (Raise IndexError,
       emit w r' (EvQuery (X_pool g) (n_instances g) query_idx)) /\
  cycles g orc (S n) (l, pick_list) w
    = (Raise IndexError,
       emit w r' (EvQuery (X_pool g) (n_instances g) query_idx)).
Proof.
  intros Hq Hbad.
  assert (Hc : cycle g orc (l, pick_list) w
               = (Raise IndexError,
                  emit w r' (EvQuery (X_pool g) (n_instances g) query_idx))).
  { unfold cycle, bind at 1, learner_query. rewrite Hq.
    unfold bind at 1. rewrite get_values_positions, take_raises;
      [reflexivity|].
    unfold y_values. now rewrite length_map. }
  split; [exact Hc|].
  cbn [cycles]. unfold bind. now rewrite Hc.
Qed.

Lemma cycles_any_oracle (g : Globals) (orc1 orc2 : Oracle) (n : nat) :
  forall (st : Learner * IndexArray) (w : World Rng),
    cycles g orc1 n st w = cycles g orc2 n st w.
Proof.
  induction n as [|n IH]; intros st w; [reflexivity|].
  cbn [cycles]. unfold bind.
  change (cycle g orc1 st w) with (cycle g orc2 st w).
  destruct (cycle g orc2 st w) as [[st'|e] w']; [apply IH|reflexivity].
Qed.

(** X4: the arguments [X] and [oracle] of a trial have no effect: whatever
    features and whatever oracle are passed, the trial returns the same
    result and leaves the same world, because the loop reads the pool and
    the labels from the globals. *)
Theorem run_active_learning_ignores_X_and_oracle (g : Globals)
  (X1 X2 : Features) (yv : Labels) (orc1 orc2 : Oracle) (num_cycles : nat)
  (w : World Rng) :
  run_active_learning g X1 yv orc1 num_cycles w
    = run_active_learning g X2 yv orc2 num_cycles w.
Proof.
  unfold run_active_learning, bind.
  destruct (np_random_choice (len (df g)) (n_initial g) w)
    as [[init|e] w0]; [|reflexivity].
  destruct (ActiveLearner_new (X_training g) (y_training g) w0)
    as [[l|e] w1]; [|reflexivity].
  now rewrite (cycles_any_oracle g orc1 orc2).
Qed.

End Lookup.

(** ** What a trace holds *)

Lemma fitted_sets_app (t1 t2 : list Event) :
  fitted_sets (t1 ++ t2) = fitted_sets t1 ++ fitted_sets t2.
Proof.
  induction t1 as [|e t1 IH]; [reflexivity|].
  destruct e; simpl; now rewrite IH.
Qed.

Lemma drawn_samples_app (t1 t2 : list Event) :
  drawn_samples (t1 ++ t2) = drawn_samples t1 ++ drawn_samples t2.
Proof.
  induction t1 as [|e t1 IH]; [reflexivity|].
  destruct e; simpl; now rewrite IH.
Qed.

Lemma CycleTrace_no_fit_no_draw (g : Globals) (batches : list (list nat))
  (cyc : list Event) :
  CycleTrace g batches cyc -> fitted_sets cyc = [] /\ drawn_samples cyc = [].
Proof. induction 1; simpl; auto. Qed.

Section Loops.

Context {Rng Learner : Type}.
Context {RS : RandomState Rng} {AL : ActiveLearner Rng Learner}.
Context {FP : Fingerprinter}.

(** X5: a trial never removes an index it has already selected: when the
    initial sample and the batches together are more than the pool holds,
    the trial still runs to the end and its final selection, over which the
    labels are summed, contains some index more than once. *)
Theorem oversized_selection_repeats (g : Globals) (X : Features)
  (yv : Labels) (orc : Oracle) (num_cycles : nat) (w : World Rng) :
  pool_of_df g -> query_contract g ->
  (n_initial g <= len (df g))%nat -> length yv = len (df g) ->
  (len (df g) < selection_size (n_initial g) (n_instances g) num_cycles)%nat ->
  exists init batches cyc vals w',
    run_active_learning g X yv orc num_cycles w = (Ok (py_sum vals), w') /\
    trace w' = trace w ++
      EvChoice (len (df g)) (n_initial g) init ::
      EvInit (X_training g) (y_training g) :: cyc /\
    CycleTrace g batches cyc /\
    take yv (init ++ concat batches) = Ok vals /\
    ~ NoDup (init ++ concat batches).
Proof.
  intros Hpool Hq Hn Hy Hbig.
  assert (Hpos : (0 < len (df g))%nat).
  { destruct (len (df g)) as [|m] eqn:Elen; [exfalso|lia].
    destruct (pool_lengths g Hpool) as (LX & _ & _).
    destruct (Hq (fst (al_init [] [] (rng w))) (rng w)) as [Hl Hr].
    rewrite LX, Elen in Hr.
    destruct (fst (al_query _ (X_pool g) (n_instances g) (rng w)))
      as [|i rest].
    - simpl in Hl. unfold selection_size in Hbig. rewrite <- Hl in Hbig. lia.
    - apply Forall_inv in Hr. lia. }
  destruct (run_active_learning_ok g X yv orc num_cycles w Hpool Hq Hpos Hn Hy)
    as (init & batches & cyc & vals & r' & Hrun & Hv & Hlen & _ & Hrange
        & Hbl & Hbs & Htr).
  exists init, batches, cyc, vals. eexists.
  split; [exact Hrun|]. split; [reflexivity|].
  split; [exact Htr|]. split; [exact Hv|].
  intros Hnd.
  assert (Hincl : incl (init ++ concat batches) (seq 0 (len (df g)))).
  { intros i Hi. apply in_seq. split; [lia|]. simpl.
    apply in_app_or in Hi. destruct Hi as [Hi|Hi].
    - rewrite Forall_forall in Hrange. now apply Hrange.
    - assert (Hall : Forall (fun j => (j < len (df g))%nat) (concat batches)).
      { apply Forall_concat. eapply Forall_impl; [|exact Hbs].
        now intros b [_ Hb]. }
      rewrite Forall_forall in Hall. now apply Hall. }
  pose proof (NoDup_incl_length Hnd Hincl) as Hle.
  rewrite length_seq, length_app, Hlen in Hle.
  rewrite (concat_length_const (n_instances g)), Hbl in Hle.
  - unfold selection_size in Hbig. lia.
  - eapply Forall_impl; [|exact Hbs]. now intros b [Hb _].
Qed.

(** A baseline trial on binary labels: its count is at most the sample
    size and at most the number of actives in the pool. *)
Lemma random_trial_bounded (d : DataFrame) (k : nat) (w : World Rng) :
  (0 < len d)%nat -> (k <= len d)%nat ->
  binary (y_values d) -> Z.of_nat k < 2 ^ 63 ->
  exists drawn hits r',
    random_trial d k w = (Ok hits, emit w r' (EvChoice (len d) k drawn)) /\
    length drawn = k /\ NoDup drawn /\
    0 <= hits <= Z.of_nat k /\ hits <= count_positive (y_values d).
Proof.
  intros Hpos Hk Hbin Hb.
  destruct (random_trial_ok d k w Hpos Hk)
    as (drawn & vals & r' & Hrun & Hlen & Hnd & _ & Hv).
  pose proof (take_Forall _ _ _ _ Hbin Hv) as Hvals.
  pose proof (take_length _ _ _ Hv) as Hvl.
  destruct (py_sum_bounded 1 vals (binary_bounds _ Hvals)) as [Hsum Hs].
  { rewrite Hvl, Hlen. lia. }
  rewrite Hvl, Hlen in Hs.
  exists drawn, (sumZ vals), r'. rewrite <- Hsum.
  split; [exact Hrun|]. rewrite Hsum.
  repeat split; trivial; try lia.
  rewrite <- (sumZ_binary _ Hbin).
  apply (take_NoDup_sum_le _ _ drawn); trivial.
  eapply Forall_impl; [|exact (binary_bounds _ Hbin)].
  intros v; simpl; lia.
Qed.

(** X6: the baseline counts no molecule twice: on binary labels and a pool
    that is not empty, the hit count of a baseline trial is at most the
    number of actives in the whole pool, and at most the sample size. *)
Theorem random_trial_at_most_actives (d : DataFrame) (k : nat)
  (w : World Rng) :
  (0 < len d)%nat -> (k <= len d)%nat ->
  binary (y_values d) -> Z.of_nat k < 2 ^ 63 ->
  exists hits w',
    random_trial d k w = (Ok hits, w') /\
    0 <= hits <= Z.of_nat k /\
    hits <= count_positive (y_values d).
Proof.
  intros Hpos Hk Hbin Hb.
  destruct (random_trial_bounded d k w Hpos Hk Hbin Hb)
    as (drawn & hits & r' & Hrun & _ & _ & Hk' & Hact).
  exists hits. eexists. split; [exact Hrun|]. split; assumption.
Qed.

(** X7: on a pool that is not empty, the baseline loop of [n] rounds
    appends [n] hit counts to its list, in order, each between 0 and the
    sample size; all it does to the world is draw [n] samples of [k]
    distinct indices: it builds no learner and asks no oracle. *)
Theorem random_trials_appends_counts (d : DataFrame) (k n : nat)
  (hit_counts : list Z) (w : World Rng) :
  (0 < len d)%nat -> (k <= len d)%nat ->
  binary (y_values d) -> Z.of_nat k < 2 ^ 63 ->
  exists counts samples w',
    random_trials d k n hit_counts w = (Ok (hit_counts ++ counts), w') /\
    trace w' = trace w ++ map (EvChoice (len d) k) samples /\
    length counts = n /\ length samples = n /\
    Forall (fun h => 0 <= h <= Z.of_nat k) counts /\
    Forall (fun s => length s = k /\ NoDup s) samples.
Proof.
  intros Hpos Hk Hbin Hb. revert hit_counts w.
  induction n as [|n IH]; intros acc w.
  - exists [], [], w. cbn. unfold ret. rewrite !app_nil_r.
    repeat split; constructor.
  - destruct (random_trial_bounded d k w Hpos Hk Hbin Hb)
      as (drawn & hits & r' & Hrun & Hlen & Hnd & Hh & _).
    destruct (IH (acc ++ [hits]) (emit w r' (EvChoice (len d) k drawn)))
      as (counts & samples & w' & Hrest & Htr & Hcl & Hsl & Hcs & Hss).
    exists (hits :: counts), (drawn :: samples), w'.
    cbn [random_trials]. unfold bind. rewrite Hrun, Hrest, Htr.
    cbn [emit trace map length]. rewrite <- !app_assoc.
    repeat split; trivial; try congruence; constructor; auto.
Qed.

(** X8: on a pool that is not empty, the cell that runs [n] trials appends
    [n] hit counts, each between 0 and [n_initial + 10 * n_instances] on
    binary labels, and every one of the [n] learners it builds is fitted on
    the same training set, the globals [X_training] and [y_training], while
    each trial draws a sample of its own. *)
Theorem active_learning_trials_share_training_set (g : Globals) (n : nat)
  (hit_counts : list Z) (w : World Rng) :
  pool_of_df g -> query_contract g -> (0 < len (df g))%nat ->
  (n_initial g <= len (df g))%nat -> binary (y_pool g) ->
  Z.of_nat (selection_size (n_initial g) (n_instances g) 10) < 2 ^ 63 ->
  exists counts calls w',
    active_learning_trials g n hit_counts w = (Ok (hit_counts ++ counts), w') /\
    trace w' = trace w ++ calls /\
    length counts = n /\
    Forall (fun h => 0 <= h <=
              Z.of_nat (selection_size (n_initial g) (n_instances g) 10))
           counts /\
    fitted_sets calls = repeat (X_training g, y_training g) n /\
    length (drawn_samples calls) = n.
Proof.
  intros Hpool Hq Hpos Hn Hbin Hb.
  destruct (pool_lengths g Hpool) as (_ & Ly & _).
  revert hit_counts w. induction n as [|n IH]; intros acc w.
  - exists [], [], w. cbn. unfold ret. rewrite !app_nil_r.
    repeat split; constructor.
  - destruct (run_active_learning_hits g (X_pool g) (y_pool g) (oracle g) 10
                w 1 Hpool Hq Hpos Hn Ly (binary_bounds _ Hbin))
      as (init & batches & cyc & vals & r' & Hrun & _ & Hsize & Hvals & _ & _
          & Hcyc); [lia|].
    pose proof (sumZ_bounds 1 vals Hvals) as Hs. rewrite Hsize in Hs.
    destruct (CycleTrace_no_fit_no_draw g batches cyc Hcyc) as [Hf Hd].
    match type of Hrun with _ = (_, ?w1) =>
      destruct (IH (acc ++ [sumZ vals]) w1)
        as (counts & calls & w' & Hrest & Htr & Hcl & Hcs & Hfit & Hdr)
    end.
    exists (sumZ vals :: counts),
      ((EvChoice (len (df g)) (n_initial g) init ::
        EvInit (X_training g) (y_training g) :: cyc) ++ calls), w'.
    cbn [active_learning_trials]. unfold bind. rewrite Hrun, Hrest, Htr.
    cbn [trace]. rewrite <- !app_assoc.
    split; [reflexivity|]. split; [reflexivity|].
    split; [simpl; congruence|].
    split; [constructor; [lia|exact Hcs]|].
    rewrite fitted_sets_app, drawn_samples_app.
    cbn [fitted_sets drawn_samples]. rewrite Hf, Hd, Hfit.
    split; [reflexivity|]. simpl. congruence.
Qed.

End Loops.

(** ** The first pass *)

Section FirstPass.

Context {Rng Learner : Type}.
Context {RS : RandomState Rng} {AL : ActiveLearner Rng Learner}.
Context {FP : Fingerprinter}.

(** The body of the printing loop is the body of the trial loop, run with
    the global oracle, followed by the lookup of the labels at the new
    selection and the print. *)
Lemma cycle_print_as_cycle (g : Globals) (l : Learner) (pick : IndexArray)
  (printed : list Z) (w : World Rng) :
  cycle_print g (l, pick, printed) w
  = match cycle g (oracle g) (l, pick) w with
    | (Ok (l', pick'), w') =>
        match take_at (y_pool g) pick' with
        | Ok picked => (Ok (l', pick', printed ++ [py_sum picked]), w')
        | Raise e => (Raise e, w')
        end
    | (Raise e, w') => (Raise e, w')
    end.
Proof.
  unfold cycle_print, cycle, bind, lift, ret.
  destruct (learner_query l (X_pool g) (n_instances g) w)
    as [[idx|e] w1]; [|reflexivity].
  destruct (get_values g (oracle g) (map Z.of_nat idx) w1)
    as [[y_new|e] w2]; [|reflexivity].
  destruct (take (X_pool g) idx) as [Xq|e]; [|reflexivity].
  destruct (take (y_pool g) idx) as [yq|e]; [|reflexivity].
  destruct (learner_teach l Xq yq w2) as [[l'|e] w3]; reflexivity.
Qed.

(** X9: the printing loop of the first pass selects as the trial loop
    does: when it runs to the end, the trial loop started from the same
    learner, selection and world, with any oracle, ends with the same
    learner, the same selection and the same world, and the printing loop
    has added one number per cycle to what was printed. *)
Theorem cycles_print_selects_as_cycles (g : Globals) (orc : Oracle) (n : nat)
  (l l' : Learner) (pick_list pick_list' : IndexArray)
  (printed0 out : list Z) (w w' : World Rng) :
  cycles_print g n (l, pick_list, printed0) w
    = (Ok (l', pick_list', out), w') ->
  cycles g orc n (l, pick_list) w = (Ok (l', pick_list'), w') /\
  exists printed, out = printed0 ++ printed /\ length printed = n.
Proof.
  rewrite (cycles_any_oracle g orc (oracle g)).
  revert l pick_list printed0 w.
  induction n as [|n IH]; intros l pick printed0 w H.
  - cbn in H. unfold ret in H. injection H as <- <- <- <-.
    split; [reflexivity|]. exists []. now rewrite app_nil_r.
  - cbn [cycles_print cycles] in *. unfold bind in *.
    rewrite cycle_print_as_cycle in H.
    destruct (cycle g (oracle g) (l, pick) w) as [[[l1 pick1]|e] w1];
      [|discriminate].
    destruct (take_at (y_pool g) pick1) as [picked|e]; [|discriminate].
    destruct (IH _ _ _ _ H) as [Hc (printed & -> & Hlen)].
    split; [exact Hc|].
    exists (py_sum picked :: printed). rewrite <- app_assoc.
    split; [reflexivity|]. simpl. congruence.
Qed.

(** The printing loop runs to the end from an integer selection inside the
    pool. *)
Lemma cycles_print_runs (g : Globals) (n : nat) :
  pool_of_df g -> query_contract g ->
  forall (l : Learner) (pick : list nat) (printed0 : list Z) (w : World Rng),
  Forall (fun i => (i < len (df g))%nat) pick ->
  exists l' pick' printed w',
    cycles_print g n (l, int_array pick, printed0) w
      = (Ok (l', pick', printed0 ++ printed), w') /\
    length printed = n.
Proof.
  intros Hpool Hq.
  destruct (pool_lengths g Hpool) as (_ & Ly & _).
  induction n as [|n IH]; intros l pick printed0 w Hpick.
  - exists l, (int_array pick), [], w. cbn. unfold ret. now rewrite app_nil_r.
  - destruct (cycle_ok g (oracle g) l (int_array pick) w Hpool Hq)
      as (b & Xq & vals & l1 & r1 & Hc & [_ Hb] & _ & _).
    unfold int_array in *. cbn [dtype items] in Hc.
    assert (Hnew : Forall (fun i => (i < len (df g))%nat) (pick ++ b))
      by (apply Forall_app; now split).
    assert (Hnew' : Forall (fun i => (i < length (y_pool g))%nat) (pick ++ b))
      by (now rewrite Ly).
    destruct (take_ok _ _ Hnew') as (picked & Hpicked & _).
    cbn [cycles_print]. unfold bind.
    rewrite cycle_print_as_cycle, Hc.
    unfold take_at. cbn [dtype items]. rewrite Hpicked.
    destruct (IH l1 (pick ++ b) (printed0 ++ [py_sum picked])
                {| rng := r1;
                   trace := trace w ++
                     [EvQuery (X_pool g) (n_instances g) b;
                      EvOracle (map Z.of_nat b) vals;
                      EvTeach Xq vals] |} Hnew)
      as (l' & pick' & printed & w' & Hrest & Hlen).
    exists l', pick', (py_sum picked :: printed), w'.
    rewrite Hrest, <- app_assoc. split; [reflexivity|]. simpl. congruence.
Qed.

(** Reading a file whose rows all fingerprint gives one row of the data
    frame per line, with fingerprints of one length. *)
Lemma read_screen_ok (nbits : nat) (csv : list (option string * Z)) :
  fingerprints_ok nbits csv ->
  exists d, read_screen csv = Ok d /\ len d = length csv /\
            Forall (fun f => length f = nbits) (fp_values d).
Proof.
  induction 1 as [|[field label] rest (s & f & Hs & Hf & Hlen) _ IH].
  - exists []. repeat split. constructor.
  - destruct IH as (d & Hd & Hl & Hfs). cbn in Hs. subst field.
    exists ({| smiles := s; y := label; fp := f |} :: d).
    cbn [read_screen]. rewrite Hf, Hd.
    split; [reflexivity|]. split; [cbn; unfold len in Hl; now rewrite Hl|].
    constructor; assumption.
Qed.

(** A missing SMILES field after rows that fingerprint stops the read with
    TypeError. *)
Lemma read_screen_missing (nbits : nat) (pre post : list (option string * Z))
  (label : Z) :
  fingerprints_ok nbits pre ->
  read_screen (pre ++ (None, label) :: post) = Raise TypeError.
Proof.
  induction 1 as [|[field lab] rest (s & f & Hs & Hf & Hlen) _ IH].
  - reflexivity.
  - cbn in Hs. subst field. cbn [app read_screen]. now rewrite Hf, IH.
Qed.

Lemma np_stack_same_length (nbits : nat) (arrays : list Fingerprint) :
  arrays <> [] -> Forall (fun f => length f = nbits) arrays ->
  np_stack arrays = Ok arrays.
Proof.
  intros Hne Hall. unfold np_stack.
  destruct arrays as [|a rest]; [contradiction|].
  apply Forall_cons_iff in Hall. destruct Hall as [Ha Hrest].
  assert (H : forallb (fun b => (length b =? length a)%nat) rest = true).
  { apply forallb_forall. intros b Hb. rewrite Forall_forall in Hrest.
    apply Nat.eqb_eq. rewrite Ha. now apply Hrest. }
  now rewrite H.
Qed.

(** X10: the outcome of the first pass, for a file whose rows all carry an
    integer label.  On a file without rows it raises "need at least one
    array to stack" when the pool array is built.  A row with an empty
    SMILES field, after rows that fingerprint, raises TypeError in the
    fingerprint cell.  On a file of 1 to 99 rows that all fingerprint to
    vectors of one length, it raises numpy's "larger sample than
    population" error at the draw.  In all three cases nothing has been
    drawn or fitted.  On a file of 100 such rows or more, with a query
    strategy that returns 100 indices into the pool, it runs to the end,
    prints ten numbers, and leaves globals in which the data frame is the
    file read, the pool arrays are its columns, both sizes are 100, and the
    training set is the pool at the 100 distinct indices of the integer
    array [initial_list]. *)
Theorem first_pass_outcome (nbits : nat) (csv : list (option string * Z))
  (w : World Rng) :
  (csv = [] -> notebook csv w = (Raise ValueError_no_arrays, w)) /\
  (forall pre post label,
     csv = pre ++ (None, label) :: post -> fingerprints_ok nbits pre ->
     notebook csv w = (Raise TypeError, w)) /\
  (fingerprints_ok nbits csv -> (0 < length csv < 100)%nat ->
   notebook csv w = (Raise ValueError_larger_sample, w)) /\
  (fingerprints_ok nbits csv -> (100 <= length csv)%nat ->
   (forall (l : Learner) (r : Rng) (d : DataFrame),
      read_screen csv = Ok d ->
      let idx := fst (al_query l (fp_values d) 100 r) in
      length idx = 100%nat /\ Forall (fun i => (i < length csv)%nat) idx) ->
   exists g printed w',
     notebook csv w = (Ok (g, printed), w') /\
     length printed = 10%nat /\
     read_screen csv = Ok (df g) /\ pool_of_df g /\
     n_initial g = 100%nat /\ n_instances g = 100%nat /\
     dtype (initial_list g) = int64 /\
     length (items (initial_list g)) = 100%nat /\
     NoDup (items (initial_list g)) /\
     X_training g
       = map (fun i => nth i (X_pool g) []) (items (initial_list g)) /\
     y_training g = labels_at (y_pool g) (items (initial_list g))).
Proof.
  split; [intros ->; reflexivity|].
  split.
  { intros pre post label -> Hpre. unfold notebook, bind, lift.
    now rewrite (read_screen_missing nbits). }
  split.
  - intros Hok [Hpos Hsmall].
    destruct (read_screen_ok nbits csv Hok) as (d & Hd & Hl & Hfs).
    unfold notebook, bind, lift. rewrite Hd.
    rewrite (np_stack_same_length nbits); trivial.
    + rewrite np_random_choice_raises; [reflexivity|lia].
    + intros E. unfold fp_values in E. apply map_eq_nil in E.
      subst d. cbn in Hl. lia.
  - intros Hok Hbig Hq.
    destruct (read_screen_ok nbits csv Hok) as (d & Hd & Hl & Hfs).
    assert (Hne : fp_values d <> []).
    { intros E. unfold fp_values in E. apply map_eq_nil in E.
      subst d. cbn in Hl. lia. }
    destruct (np_random_choice_ok (len d) 100 w)
      as (init & r0 & Hch & Hil & Hnd & Hrange); [lia|].
    rewrite range_dtype_pos in Hch by lia.
    assert (HrX : Forall (fun i => (i < length (fp_values d))%nat) init)
      by (unfold fp_values; rewrite length_map; exact Hrange).
    assert (Hry : Forall (fun i => (i < length (y_values d))%nat) init)
      by (unfold y_values; rewrite length_map; exact Hrange).
    destruct (ActiveLearner_new_ok
                (map (fun i => nth i (fp_values d) []) init)
                (labels_at (y_values d) init)
                (emit w r0 (EvChoice (len d) 100 init)))
      as (l0 & w1 & Hnew).
    set (g := {| df := d;
                 X_pool := fp_values d;
                 y_pool := y_values d;
                 n_initial := 100; initial_list := int_array init;
                 X_training := map (fun i => nth i (fp_values d) []) init;
                 y_training := labels_at (y_values d) init;
                 oracle := {| self_df := d |};
                 n_instances := 100 |}).
    assert (Hpool : pool_of_df g) by (split; reflexivity).
    assert (Hcontract : query_contract g).
    { intros l r. cbn. destruct (Hq l r d Hd) as [H1 H2]. split; [exact H1|].
      unfold fp_values. rewrite length_map.
      fold (len d). now rewrite Hl. }
    destruct (cycles_print_runs g 10 Hpool Hcontract l0 init [] w1 Hrange)
      as (l' & pick' & printed & w' & Hloop & Hpl).
    exists g, printed, w'.
    split.
    + unfold notebook, bind, lift. rewrite Hd.
      rewrite (np_stack_same_length nbits); trivial.
      rewrite Hch. unfold take_at. cbn [dtype items].
      rewrite (take_nth ([] : Fingerprint) _ _ HrX), (take_nth 0 _ _ Hry).
      fold (labels_at (y_values d) init). rewrite Hnew.
      fold (int_array init). fold g. rewrite Hloop. reflexivity.
    + repeat split; trivial.
Qed.

End FirstPass.

(** ** The labels argument of a trial, and the empty pool *)

Section LabelsArgument.

Context {Rng Learner : Type}.
Context {RS : RandomState Rng} {AL : ActiveLearner Rng Learner}.
Context {FP : Fingerprinter}.

(** X11: the labels argument [y] is read only after the loop.  With a pool
    that is not empty, the pool arrays in step with the data frame and a
    query strategy that keeps its contract, a trial draws its sample, builds
    its learner and runs all [num_cycles] cycles whatever [y] is; the
    outcome is then decided by [y] alone: the sum of the labels of [y] at
    the whole selection when every selected index is inside [y], and
    IndexError otherwise, raised after every query and teach call has been
    made. *)
Theorem labels_looked_up_after_loop (g : Globals) (X : Features)
  (yv : Labels) (orc : Oracle) (num_cycles : nat) (w : World Rng) :
  pool_of_df g -> query_contract g -> (0 < len (df g))%nat ->
  (n_initial g <= len (df g))%nat ->
  exists init batches cyc r',
    length init = n_initial g /\ length batches = num_cycles /\
    CycleTrace g batches cyc /\
    run_active_learning g X yv orc num_cycles w
      = (if forallb (fun i => (i <? length yv)%nat) (init ++ concat batches)
         then Ok (py_sum (labels_at yv (init ++ concat batches)))
         else Raise IndexError,
         {| rng := r';
            trace := trace w ++
              EvChoice (len (df g)) (n_initial g) init ::
              EvInit (X_training g) (y_training g) :: cyc |}).
Proof.
  intros Hpool Hq Hpos Hn.
  destruct (np_random_choice_ok (len (df g)) (n_initial g) w Hn)
    as (init & r0 & Hch & Hlen & _ & _).
  rewrite (range_dtype_pos _ Hpos) in Hch.
  unfold run_active_learning, bind at 1. rewrite Hch.
  unfold bind at 1, ActiveLearner_new. simpl rng.
  destruct (al_init (X_training g) (y_training g) r0) as [l0 r1] eqn:EI.
  unfold bind at 1.
  destruct (cycles_ok g orc num_cycles Hpool Hq l0
              {| dtype := int64; items := init |}
              (emit (emit w r0 (EvChoice (len (df g)) (n_initial g) init)) r1
                    (EvInit (X_training g) (y_training g))))
    as (batches & cyc & l' & r' & Hcs & Hbl & _ & Htr).
  rewrite Hcs. exists init, batches, cyc, r'.
  do 3 (split; [assumption|]).
  unfold bind, lift, ret, take_at. cbn [dtype items].
  simpl trace. rewrite <- !app_assoc. simpl.
  destruct (forallb (fun i => (i <? length yv)%nat) (init ++ concat batches))
    eqn:Hall.
  - rewrite (take_nth 0); [reflexivity|].
    apply Forall_forall. intros i Hi.
    rewrite forallb_forall in Hall. now apply Nat.ltb_lt, Hall.
  - rewrite take_raises; [reflexivity|].
    intros Hf. rewrite Forall_forall in Hf.
    assert (Htrue : forallb (fun i => (i <? length yv)%nat)
                      (init ++ concat batches) = true)
      by (apply forallb_forall; intros i Hi; now apply Nat.ltb_lt, Hf).
    congruence.
Qed.

(** X12: on a pool that is not empty, a trial of no cycle draws its
    sample, builds its learner on the global training set and returns the
    sum of the labels of [y] at the sample alone: it makes no query, asks no
    oracle and teaches nothing, and needs nothing of the pool arrays or of
    the query strategy. *)
Theorem zero_cycle_trial (g : Globals) (X : Features) (yv : Labels)
  (orc : Oracle) (w : World Rng) :
  (0 < len (df g))%nat ->
  (n_initial g <= len (df g))%nat -> length yv = len (df g) ->
  exists init r',
    run_active_learning g X yv orc 0 w
      = (Ok (py_sum (labels_at yv init)),
         {| rng := r';
            trace := trace w ++
              [EvChoice (len (df g)) (n_initial g) init;
               EvInit (X_training g) (y_training g)] |}) /\
    length init = n_initial g /\ NoDup init /\
    Forall (fun i => (i < length yv)%nat) init.
Proof.
  intros Hpos Hn Hy.
  destruct (np_random_choice_ok (len (df g)) (n_initial g) w Hn)
    as (init & r0 & Hch & Hlen & Hnd & Hrange).
  rewrite (range_dtype_pos _ Hpos) in Hch.
  assert (Hr : Forall (fun i => (i < length yv)%nat) init) by (now rewrite Hy).
  unfold run_active_learning, bind at 1. rewrite Hch.
  unfold bind at 1, ActiveLearner_new. simpl rng.
  destruct (al_init (X_training g) (y_training g) r0) as [l0 r1] eqn:EI.
  cbn [cycles]. unfold bind, ret, lift, take_at. cbn [dtype items].
  rewrite (take_nth 0 yv init Hr).
  exists init, r1. unfold emit, labels_at. simpl. rewrite <- app_assoc.
  repeat split; trivial.
Qed.

(** A cycle keeps the dtype of the selection, and the only error it raises
    is IndexError. *)
Lemma cycle_outcome (g : Globals) (orc : Oracle) (l : Learner)
  (pick : IndexArray) (w : World Rng) :
  match cycle g orc (l, pick) w with
  | (Ok (_, pick'), _) => dtype pick' = dtype pick
  | (Raise e, _) => e = IndexError
  end.
Proof.
  unfold cycle, bind, lift, ret, learner_query, learner_teach, get_values.
  destruct (al_query l (X_pool g) (n_instances g) (rng w)) as [idx r1].
  destruct (np_index (y_values (df g)) (map Z.of_nat idx)) as [y_new|e] eqn:E1;
    [|exact (np_index_raise_is_IndexError _ _ _ E1)].
  destruct (take (X_pool g) idx) as [Xq|e] eqn:E2;
    [|exact (take_raise_is_IndexError _ _ _ E2)].
  destruct (take (y_pool g) idx) as [yq|e] eqn:E3;
    [|exact (take_raise_is_IndexError _ _ _ E3)].
  cbn. destruct (al_teach l Xq yq r1) as [l' r2].
  cbn. apply promote_int64_r.
Qed.

Lemma cycles_outcome (g : Globals) (orc : Oracle) (n : nat) :
  forall (l : Learner) (pick : IndexArray) (w : World Rng),
  match cycles g orc n (l, pick) w with
  | (Ok (_, pick'), _) => dtype pick' = dtype pick
  | (Raise e, _) => e = IndexError
  end.
Proof.
  induction n as [|n IH]; intros l pick w; [reflexivity|].
  cbn [cycles]. unfold bind.
  pose proof (cycle_outcome g orc l pick w) as Hc.
  destruct (cycle g orc (l, pick) w) as [[[l1 pick1]|e] w1]; [|exact Hc].
  specialize (IH l1 pick1 w1).
  destruct (cycles g orc n (l1, pick1) w1) as [[[l2 pick2]|e] w2];
    [congruence|exact IH].
Qed.

(** With an empty data frame and [n_initial = 0] the selection is a float
    array from the draw on, so the trial ends in IndexError. *)
Lemma empty_pool_trial_raises (g : Globals) (X : Features) (yv : Labels)
  (orc : Oracle) (num_cycles : nat) (w : World Rng) :
  len (df g) = 0%nat -> n_initial g = 0%nat ->
  fst (run_active_learning g X yv orc num_cycles w) = Raise IndexError.
Proof.
  intros Hlen Hn0.
  destruct (np_random_choice_ok (len (df g)) (n_initial g) w)
    as (init & r0 & Hch & _); [lia|].
  rewrite Hlen in Hch. cbn [range_dtype Nat.eqb] in Hch.
  unfold run_active_learning, bind at 1. rewrite Hlen, Hch.
  unfold bind at 1, ActiveLearner_new. simpl rng.
  destruct (al_init (X_training g) (y_training g) r0) as [l0 r1].
  unfold bind at 1.
  match goal with |- context [cycles g orc num_cycles (l0, ?p) ?w0] =>
    pose proof (cycles_outcome g orc num_cycles l0 p w0) as Hout;
    destruct (cycles g orc num_cycles (l0, p) w0) as [[[l' pick']|e] w2]
  end.
  - cbn [dtype] in Hout. unfold bind, lift, take_at. now rewrite Hout.
  - now rewrite Hout.
Qed.

(** X3: a pool without molecules never yields a hit count.  With
    [n_initial = 0] the draw succeeds, but the empty sample is a float
    array, as [np.array(range(0))] is, and stays one through every
    [np.append]; an array of floats is no index, so the trial returns no
    number, whatever the number of cycles and whatever the labels.  A
    baseline trial with an empty sample raises IndexError right after its
    draw. *)
Theorem empty_pool_never_counts (g : Globals) (X : Features) (yv : Labels)
  (orc : Oracle) (num_cycles : nat) (d : DataFrame) (w : World Rng) :
  (len (df g) = 0%nat -> n_initial g = 0%nat ->
   forall hits,
     fst (run_active_learning g X yv orc num_cycles w) <> Ok hits) /\
  (len d = 0%nat ->
   exists r', random_trial d 0 w
              = (Raise IndexError, emit w r' (EvChoice 0 0 []))).
Proof.
  split.
  - intros Hlen Hn0 hits.
    now rewrite (empty_pool_trial_raises g X yv orc num_cycles w Hlen Hn0).
  - intros Hlen.
    destruct (random_trial_draw d 0 w) as (drawn & r' & Hrun & _ & Hl & _);
      [lia|].
    destruct drawn; [|discriminate].
    exists r'. rewrite Hrun, Hlen. reflexivity.
Qed.

End LabelsArgument.

(** ** The further properties at concrete pools *)

(** The demo fingerprinter turns every SMILES string into a vector of one
    entry, so a file without a missing field fingerprints. *)
Lemma length_fp_ok (csv : list (option string * Z)) :
  forallb (fun row => match fst row with Some _ => true | None => false end)
          csv = true ->
  fingerprints_ok 1 csv.
Proof.
  induction csv as [|[[s|] label] rest IH]; cbn; intros H.
  - constructor.
  - constructor; [|now apply IH].
    exists s. eexists. repeat split.
  - discriminate.
Qed.

Lemma alkanes200_query_contract (l r : nat) (d : DataFrame) :
  read_screen (Demo.csv_alkanes 200) = Ok d ->
  let idx := fst (al_query l (fp_values d) 100 r) in
  length idx = 100%nat /\
  Forall (fun i => (i < length (Demo.csv_alkanes 200))%nat) idx.
Proof.
  intros Hd. cbv zeta. cbn [al_query Demo.counting_learner fst].
  destruct (read_screen_ok 1 (Demo.csv_alkanes 200))
    as (d' & Hd' & Hl & _).
  { apply length_fp_ok. vm_compute. reflexivity. }
  rewrite Hd in Hd'. injection Hd' as <-.
  assert (E : length (fp_values d) = length (Demo.csv_alkanes 200))
    by (unfold fp_values; rewrite length_map; exact Hl).
  rewrite E. apply window_contract.
  unfold Demo.csv_alkanes. rewrite length_map, length_seq. lia.
Qed.

Lemma get_values_in_range_witness :
  (exists vals,
     get_values Demo.g4 (oracle Demo.g4) [1; -1; 1; -4] (Demo.world0 0)
       = (Ok vals, emit (Demo.world0 0) (rng (Demo.world0 0))
                     (EvOracle [1; -1; 1; -4] vals)) /\
     vals = [1; 1; 1; 0]) /\
  get_values Demo.g4 (oracle Demo.g4) [1; 4] (Demo.world0 0)
    = (Raise IndexError, Demo.world0 0) /\
  get_values Demo.g4 (oracle Demo.g4) [-5] (Demo.world0 0)
    = (Raise IndexError, Demo.world0 0).
Proof.
  destruct (get_values_in_range Demo.g4 (oracle Demo.g4)
              [1; -1; 1; -4] (Demo.world0 0)) as [Hin _].
  destruct (get_values_in_range Demo.g4 (oracle Demo.g4)
              [1; 4] (Demo.world0 0)) as [_ Hout].
  destruct (get_values_in_range Demo.g4 (oracle Demo.g4)
              [-5] (Demo.world0 0)) as [_ Hlow].
  split; [|split].
  - apply Hin. cbn. repeat constructor; lia.
  - apply Hout. intros H. apply Forall_inv_tail, Forall_inv in H.
    cbn in H. lia.
  - apply Hlow. intros H. apply Forall_inv in H. cbn in H. lia.
Defined.

Lemma cycle_out_of_range_query_witness :
  cycle Demo.g_stale_pool (oracle Demo.g_stale_pool)
    (1%nat, int_array [0%nat]) (Demo.world0 3)
  = (Raise IndexError,
     emit (Demo.world0 3) 4%nat
       (EvQuery (X_pool Demo.g_stale_pool) 2 [4%nat; 5%nat])) /\
  cycles Demo.g_stale_pool (oracle Demo.g_stale_pool) 10
    (1%nat, int_array [0%nat]) (Demo.world0 3)
  = (Raise IndexError,
     emit (Demo.world0 3) 4%nat
       (EvQuery (X_pool Demo.g_stale_pool) 2 [4%nat; 5%nat])).
Proof.
  apply (cycle_out_of_range_query Demo.g_stale_pool
           (oracle Demo.g_stale_pool) 1%nat (int_array [0%nat])
           [4%nat; 5%nat] (Demo.world0 3) 4%nat 9).
  - reflexivity.
  - intros H. apply Forall_inv in H. cbn in H. lia.
Defined.

Lemma empty_pool_never_counts_witness :
  (forall hits,
     fst (run_active_learning Demo.g_empty (X_pool Demo.g_empty)
            (y_pool Demo.g_empty) (oracle Demo.g_empty) 10 (Demo.world0 1))
       <> Ok hits) /\
  exists r', random_trial [] 0 (Demo.world0 1)
             = (Raise IndexError, emit (Demo.world0 1) r' (EvChoice 0 0 [])).
Proof.
  destruct (empty_pool_never_counts Demo.g_empty (X_pool Demo.g_empty)
              (y_pool Demo.g_empty) (oracle Demo.g_empty) 10 []
              (Demo.world0 1)) as [Htrial Hbase].
  split.
  - apply Htrial; reflexivity.
  - apply Hbase. reflexivity.
Defined.

Lemma oversized_selection_repeats_witness :
  exists init batches cyc vals w',
    run_active_learning Demo.g4 (X_pool Demo.g4) (y_pool Demo.g4)
      (oracle Demo.g4) 3 (Demo.world0 1) = (Ok (py_sum vals), w') /\
    trace w' = trace (Demo.world0 1) ++
      EvChoice (len (df Demo.g4)) (n_initial Demo.g4) init ::
      EvInit (X_training Demo.g4) (y_training Demo.g4) :: cyc /\
    CycleTrace Demo.g4 batches cyc /\
    take (y_pool Demo.g4) (init ++ concat batches) = Ok vals /\
    ~ NoDup (init ++ concat batches).
Proof.
  apply (oversized_selection_repeats Demo.g4 (X_pool Demo.g4)
           (y_pool Demo.g4) (oracle Demo.g4) 3 (Demo.world0 1)).
  - exact g4_pool_of_df.
  - exact g4_query_contract.
  - cbn; lia.
  - reflexivity.
  - cbn; lia.
Defined.

Lemma random_trial_at_most_actives_witness :
  exists hits w',
    random_trial Demo.df4 3 (Demo.world0 1) = (Ok hits, w') /\
    0 <= hits <= 3 /\ hits <= count_positive (y_values Demo.df4).
Proof.
  apply (random_trial_at_most_actives Demo.df4 3 (Demo.world0 1)).
  - cbn; lia.
  - cbn; lia.
  - exact g4_binary.
  - vm_compute; reflexivity.
Defined.

Lemma random_trials_appends_counts_witness :
  exists counts samples w',
    random_trials Demo.df4 2 3 [] (Demo.world0 1) = (Ok ([] ++ counts), w') /\
    trace w' = trace (Demo.world0 1) ++ map (EvChoice (len Demo.df4) 2) samples /\
    length counts = 3%nat /\ length samples = 3%nat /\
    Forall (fun h => 0 <= h <= Z.of_nat 2) counts /\
    Forall (fun s => length s = 2%nat /\ NoDup s) samples.
Proof.
  apply (random_trials_appends_counts Demo.df4 2 3 [] (Demo.world0 1)).
  - cbn; lia.
  - cbn; lia.
  - exact g4_binary.
  - vm_compute; reflexivity.
Defined.

Lemma active_learning_trials_share_training_set_witness :
  exists counts calls w',
    active_learning_trials Demo.g4 2 [] (Demo.world0 1)
      = (Ok ([] ++ counts), w') /\
    trace w' = trace (Demo.world0 1) ++ calls /\
    length counts = 2%nat /\
    Forall (fun h => 0 <= h <=
              Z.of_nat (selection_size (n_initial Demo.g4)
                          (n_instances Demo.g4) 10)) counts /\
    fitted_sets calls
      = repeat (X_training Demo.g4, y_training Demo.g4) 2 /\
    length (drawn_samples calls) = 2%nat.
Proof.
  apply (active_learning_trials_share_training_set Demo.g4 2 []
           (Demo.world0 1)).
  - exact g4_pool_of_df.
  - exact g4_query_contract.
  - cbn; lia.
  - cbn; lia.
  - exact g4_binary.
  - vm_compute; reflexivity.
Defined.

Lemma cycles_print_selects_as_cycles_witness :
  exists l' pick_list' out w',
    cycles_print Demo.g4 2 (1%nat, int_array [0%nat], []) (Demo.world0 1)
      = (Ok (l', pick_list', out), w') /\
    (cycles Demo.g4 {| self_df := [] |} 2 (1%nat, int_array [0%nat])
       (Demo.world0 1)
       = (Ok (l', pick_list'), w') /\
     exists printed, out = [] ++ printed /\ length printed = 2%nat).
Proof.
  do 4 eexists. split.
  - vm_compute. reflexivity.
  - apply cycles_print_selects_as_cycles. vm_compute. reflexivity.
Defined.

Lemma first_pass_outcome_witness :
  notebook [] (Demo.world0 0) = (Raise ValueError_no_arrays, Demo.world0 0) /\
  notebook Demo.csv_gap (Demo.world0 0) = (Raise TypeError, Demo.world0 0) /\
  notebook Demo.csv4 (Demo.world0 0)
    = (Raise ValueError_larger_sample, Demo.world0 0) /\
  exists g printed w',
    notebook (Demo.csv_alkanes 200) (Demo.world0 0) = (Ok (g, printed), w') /\
    length printed = 10%nat /\
    read_screen (Demo.csv_alkanes 200) = Ok (df g) /\ pool_of_df g /\
    n_initial g = 100%nat /\ n_instances g = 100%nat /\
    dtype (initial_list g) = int64 /\
    length (items (initial_list g)) = 100%nat /\
    NoDup (items (initial_list g)) /\
    X_training g
      = map (fun i => nth i (X_pool g) []) (items (initial_list g)) /\
    y_training g = labels_at (y_pool g) (items (initial_list g)).
Proof.
  destruct (first_pass_outcome 1 [] (Demo.world0 0)) as (Hnone & _).
  destruct (first_pass_outcome 1 Demo.csv_gap (Demo.world0 0))
    as (_ & Hgap & _).
  destruct (first_pass_outcome 1 Demo.csv4 (Demo.world0 0))
    as (_ & _ & Hsmall & _).
  destruct (first_pass_outcome 1 (Demo.csv_alkanes 200) (Demo.world0 0))
    as (_ & _ & _ & Hbig).
  split; [|split; [|split]].
  - apply Hnone. reflexivity.
  - apply (Hgap [(Some "C"%string, 0); (Some "CC"%string, 1)]
                [(Some "CCCC"%string, 1)] 0).
    + reflexivity.
    + apply length_fp_ok. reflexivity.
  - apply Hsmall.
    + apply length_fp_ok. reflexivity.
    + cbn; lia.
  - apply Hbig.
    + apply length_fp_ok. vm_compute. reflexivity.
    + unfold Demo.csv_alkanes. rewrite length_map, length_seq. lia.
    + exact alkanes200_query_contract.
Defined.

Lemma labels_looked_up_after_loop_witness :
  exists init batches cyc r',
    length init = n_initial Demo.g4 /\ length batches = 3%nat /\
    CycleTrace Demo.g4 batches cyc /\
    run_active_learning Demo.g4 (X_pool Demo.g4) [0] (oracle Demo.g4) 3
      (Demo.world0 1)
      = (if forallb (fun i => (i <? length [0])%nat) (init ++ concat batches)
         then Ok (py_sum (labels_at [0] (init ++ concat batches)))
         else Raise IndexError,
         {| rng := r';
            trace := trace (Demo.world0 1) ++
              EvChoice (len (df Demo.g4)) (n_initial Demo.g4) init ::
              EvInit (X_training Demo.g4) (y_training Demo.g4) :: cyc |}).
Proof.
  apply (labels_looked_up_after_loop Demo.g4 (X_pool Demo.g4) [0]
           (oracle Demo.g4) 3 (Demo.world0 1)).
  - exact g4_pool_of_df.
  - exact g4_query_contract.
  - cbn; lia.
  - cbn; lia.
Defined.

Lemma zero_cycle_trial_witness :
  exists init r',
    run_active_learning Demo.g_stale_pool (X_pool Demo.g_stale_pool)
      (y_pool Demo.g_stale_pool) (oracle Demo.g_stale_pool) 0 (Demo.world0 1)
      = (Ok (py_sum (labels_at (y_pool Demo.g_stale_pool) init)),
         {| rng := r';
            trace := trace (Demo.world0 1) ++
              [EvChoice (len (df Demo.g_stale_pool))
                 (n_initial Demo.g_stale_pool) init;
               EvInit (X_training Demo.g_stale_pool)
                 (y_training Demo.g_stale_pool)] |}) /\
    length init = n_initial Demo.g_stale_pool /\ NoDup init /\
    Forall (fun i => (i < length (y_pool Demo.g_stale_pool))%nat) init.
Proof.
  apply (zero_cycle_trial Demo.g_stale_pool (X_pool Demo.g_stale_pool)
           (y_pool Demo.g_stale_pool) (oracle Demo.g_stale_pool)
           (Demo.world0 1)).
  - cbn; lia.
  - cbn; lia.
  - reflexivity.
Defined.

(** The trial on the pool of four with a label for the first molecule
    only: the three cycles run, then the lookup fails. *)
Example g4_short_labels :
  let '(res, w') :=
    run_active_learning Demo.g4 (X_pool Demo.g4) [0] (oracle Demo.g4) 3
      (Demo.world0 1) in
  res = Raise IndexError /\
  length (filter (fun e => match e with EvTeach _ _ => true | _ => false end)
            (trace w')) = 3%nat.
Proof. vm_compute. split; reflexivity. Qed.

(** A trial of no cycle on the empty data frame: the draw and the learner
    go through, and the lookup of the labels at the float selection
    fails. *)
Example empty_pool_trial :
  run_active_learning Demo.g_empty (X_pool Demo.g_empty)
    (y_pool Demo.g_empty) (oracle Demo.g_empty) 0 (Demo.world0 1)
  = (Raise IndexError,
     {| rng := 3%nat;
        trace := [EvChoice 0 0 []; EvInit [[1]] [0]] |}).
Proof. vm_compute. reflexivity. Qed.
